(** * arango.aql: request builders and response handlers

    A shallow embedding of [arango/aql.py].  Every API method of the classes
    [AQL] and [AQLQueryCache] returns a pair [(request, handler)]: the request
    descriptor that is sent, and a closure that turns the response into a
    decoded value or raises.  Both halves are embedded as functions; raising
    is embedded in the result type [outcome]. *)

From stdpp Require Import gmap strings list fin_maps.
From Stdlib Require Import ZArith String.

Open Scope Z_scope.
Open Scope string_scope.

(** ** Python values

    The values that travel through this module are decoded JSON documents and
    the arguments of the API methods.  A dictionary is a finite map; its keys
    are hashable values.  JSON numbers are embedded as integers (no claim
    depends on floating point). *)

(** Hashable keys.  Python identifies [True] with [1] and [False] with [0] as
    dictionary keys, so a Boolean key is stored as its integer. *)
Inductive hkey : Type :=
  | KNone
  | KInt (z : Z)
  | KStr (s : string).

#[global] Instance hkey_eq_dec : EqDecision hkey.
Proof. solve_decision. Defined.

Definition hkey_enc (k : hkey) : unit + Z + string :=
  match k with
  | KNone => inl (inl tt)
  | KInt z => inl (inr z)
  | KStr s => inr s
  end.

Definition hkey_dec (c : unit + Z + string) : hkey :=
  match c with
  | inl (inl _) => KNone
  | inl (inr z) => KInt z
  | inr s => KStr s
  end.

#[global] Instance hkey_countable : Countable hkey.
Proof.
  apply (inj_countable' hkey_enc hkey_dec).
  intros k. destruct k; reflexivity.
Defined.

#[warnings="-register-all"] Inductive pyval : Type :=
  | PNone
  | PBool (b : bool)
  | PInt (z : Z)
  | PStr (s : string)
  | PList (l : list pyval)
  | PDict (d : gmap hkey pyval).

Abbreviation pydict := (gmap hkey pyval).

(** A string literal used as a dictionary key. *)
Coercion KStr : string >-> hkey.

(** ** Exceptions and results *)

(** Modelled from the spec: the transport hands a handler the pair
    (status code, decoded body); the class of the response object is not part
    of this file. *)
Record response : Type := Response {
  status_code : Z;
  body : pyval
}.

(** The exception classes imported from [arango.exceptions] (each is built
    from the response it reports), and the built-in exceptions that the
    handlers can let escape. *)
Inductive exn : Type :=
  | AQLQueryExplainError (res : response)
  | AQLQueryValidateError (res : response)
  | AQLQueryExecuteError (res : response)
  | AQLFunctionCreateError (res : response)
  | AQLFunctionDeleteError (res : response)
  | AQLFunctionsListError (res : response)
  | AQLCacheClearError (res : response)
  | AQLCacheConfigureError (res : response)
  | AQLCacheGetPropertiesError (res : response)
  | KeyError
  | TypeError
  | ValueError
  | AttributeError.

Inductive outcome (A : Type) : Type :=
  | Ret (a : A)
  | Raise (e : exn).

Arguments Ret {A} a.
Arguments Raise {A} e.

#[global] Instance outcome_ret : MRet outcome := fun A a => Ret a.

#[global] Instance outcome_bind : MBind outcome := fun A B k m =>
  match m with
  | Ret a => k a
  | Raise e => Raise e
  end.

(** ** The Python operations the module uses *)

(** Truth value of an object, as tested by [or], [and], [not] and [if]. *)
Definition truthy (v : pyval) : bool :=
  match v with
  | PNone => false
  | PBool b => b
  | PInt z => negb (Z.eqb z 0)
  | PStr s => negb (String.eqb s "")
  | PList l => negb (Nat.eqb (List.length l) 0)
  | PDict d => negb (Nat.eqb (size d) 0)
  end.

(** [not v] *)
Definition py_not (v : pyval) : pyval := PBool (negb (truthy v)).

(** [v is not None] *)
Definition is_not_None (v : pyval) : bool :=
  match v with
  | PNone => false
  | _ => true
  end.

(** The key under which a value is stored in a dictionary; lists and
    dictionaries are unhashable. *)
Definition hashable (v : pyval) : outcome hkey :=
  match v with
  | PNone => Ret KNone
  | PBool b => Ret (KInt (if b then 1 else 0))
  | PInt z => Ret (KInt z)
  | PStr s => Ret (KStr s)
  | PList _ | PDict _ => Raise TypeError
  end.

Definition key_val (k : hkey) : pyval :=
  match k with
  | KNone => PNone
  | KInt z => PInt z
  | KStr s => PStr s
  end.

(** [v[k]] for a string [k]: only a dictionary can be subscripted with a
    string. *)
Definition py_getitem (v : pyval) (k : string) : outcome pyval :=
  match v with
  | PDict d =>
      match d !! KStr k with
      | Some x => Ret x
      | None => Raise KeyError
      end
  | _ => Raise TypeError
  end.

(** [k in v] for a string [k]: key membership in a dictionary, element
    membership in a list (a string only equals a string), substring test in a
    string; the other values are not containers. *)
Definition py_contains (k : string) (v : pyval) : outcome bool :=
  match v with
  | PDict d => Ret (bool_decide (is_Some (d !! KStr k)))
  | PList l =>
      Ret (existsb (fun e => match e with
                             | PStr s => String.eqb s k
                             | _ => false
                             end) l)
  | PStr s => Ret (bool_decide (is_Some (String.index 0 k s)))
  | _ => Raise TypeError
  end.

(** [v.pop(k, None)] for a string [k], as a statement (its value is dropped):
    the object after the call.  [list.pop] takes at most one argument; the
    other values have no [pop]. *)
Definition py_pop (v : pyval) (k : string) : outcome pyval :=
  match v with
  | PDict d => Ret (PDict (delete (KStr k) d))
  | PList _ => Raise TypeError
  | _ => Raise AttributeError
  end.

(** The items that iterating over [v] yields.  A dictionary yields its keys
    (in the order of the map's enumeration: the order in which a dictionary
    was filled is not part of this model). *)
Definition py_iter (v : pyval) : outcome (list pyval) :=
  match v with
  | PList l => Ret l
  | PStr s => Ret ((fun c => PStr (String c "")) <$> list_ascii_of_string s)
  | PDict d => Ret (key_val <$> (map_to_list d).*1)
  | _ => Raise TypeError
  end.

(** One element of the sequence given to [dict]: it must itself be a sequence
    of exactly two items, a hashable key and a value. *)
Definition pair_of (item : pyval) : outcome (hkey * pyval) :=
  match py_iter item with
  | Raise _ => Raise TypeError
  | Ret [k; v] => k' ← hashable k; Ret (k', v)
  | Ret _ => Raise ValueError
  end.

Fixpoint dict_update (items : list pyval) (d : pydict) : outcome pydict :=
  match items with
  | [] => Ret d
  | item :: rest => kv ← pair_of item; dict_update rest (<[kv.1 := kv.2]> d)
  end.

(** [dict(v)]: a copy of a dictionary, or the dictionary built from a
    sequence of key/value pairs. *)
Definition py_dict (v : pyval) : outcome pydict :=
  match v with
  | PDict d => Ret d
  | _ => items ← py_iter v; dict_update items ∅
  end.

(** ** Collaborators *)

(** Modelled from the spec: [HTTP_OK] is imported from [arango.utils], which
    is not part of this file; the specification gives the success-status set
    as the fixed set of codes 200, 201, 202, 203, 204, 205, 206. *)
Definition HTTP_OK : list Z := [200; 201; 202; 203; 204; 205; 206].

(** [status in codes] *)
Definition status_in (status : Z) (codes : list Z) : bool :=
  bool_decide (status ∈ codes).

(** Modelled from the spec: [arango.request.Request] is not part of this
    file; a request descriptor is (method, path, query-params, body), and the
    two last are absent unless the builder passes them. *)
Record Request : Type := mkRequest {
  method : string;
  endpoint : string;
  params : option pydict;
  data : option pydict
}.

(** Modelled from the spec: [arango.cursor.Cursor] is not part of this file;
    [execute] wraps the connection and the full decoded response body into a
    new cursor. *)
Record Cursor (connection : Type) : Type := mkCursor {
  cursor_conn : connection;
  cursor_init : pyval
}.

Arguments mkCursor {connection} _ _.
Arguments cursor_conn {connection} _.
Arguments cursor_init {connection} _.

(** ** class AQL *)

Module AQL.

(** [explain(self, query, all_plans=False, max_plans=None, opt_rules=None)] *)
Definition explain (query all_plans max_plans opt_rules : pyval)
  : Request * (response -> outcome pyval) :=
  let options : pydict := {[ KStr "allPlans" := all_plans ]} in
  let options :=
    if is_not_None max_plans
    then <[ KStr "maxNumberOfPlans" := max_plans ]> options
    else options in
  let options :=
    if is_not_None opt_rules
    then <[ KStr "optimizer" := PDict {[ KStr "rules" := opt_rules ]} ]> options
    else options in
  let request :=
    {| method := "post";
       endpoint := "/_api/explain";
       params := None;
       data := Some {[ KStr "query" := query; KStr "options" := PDict options ]} |} in
  let handler (res : response) : outcome pyval :=
    if negb (status_in (status_code res) HTTP_OK)
    then Raise (AQLQueryExplainError res)
    else
      has_plan ← py_contains "plan" (body res);
      py_getitem (body res) (if has_plan : bool then "plan" else "plans") in
  (request, handler).

(** [validate(self, query)] *)
Definition validate (query : pyval) : Request * (response -> outcome pyval) :=
  let request :=
    {| method := "post";
       endpoint := "/_api/query";
       params := None;
       data := Some {[ KStr "query" := query ]} |} in
  let handler (res : response) : outcome pyval :=
    if negb (status_in (status_code res) HTTP_OK)
    then Raise (AQLQueryValidateError res)
    else
      body1 ← py_pop (body res) "code";
      body2 ← py_pop body1 "error";
      Ret body2 in
  (request, handler).

(** [execute(self, query, count=False, batch_size=None, ttl=None,
            bind_vars=None, full_count=None, max_plans=None,
            optimizer_rules=None)] *)
Definition execute {connection : Type} (self_conn : connection)
    (query count batch_size ttl bind_vars full_count max_plans
       optimizer_rules : pyval)
  : Request * (response -> outcome (Cursor connection)) :=
  let options : pydict := ∅ in
  let options :=
    if is_not_None full_count
    then <[ KStr "fullCount" := full_count ]> options
    else options in
  let options :=
    if is_not_None max_plans
    then <[ KStr "maxNumberOfPlans" := max_plans ]> options
    else options in
  let options :=
    if is_not_None optimizer_rules
    then <[ KStr "optimizer" := PDict {[ KStr "rules" := optimizer_rules ]} ]> options
    else options in
  let data : pydict := {[ KStr "query" := query; KStr "count" := count ]} in
  let data :=
    if is_not_None batch_size
    then <[ KStr "batchSize" := batch_size ]> data
    else data in
  let data :=
    if is_not_None ttl then <[ KStr "ttl" := ttl ]> data else data in
  let data :=
    if is_not_None bind_vars
    then <[ KStr "bindVars" := bind_vars ]> data
    else data in
  let data :=
    if truthy (PDict options)
    then <[ KStr "options" := PDict options ]> data
    else data in
  let request :=
    {| method := "post";
       endpoint := "/_api/cursor";
       params := None;
       data := Some data |} in
  let handler (res : response) : outcome (Cursor connection) :=
    if negb (status_in (status_code res) HTTP_OK)
    then Raise (AQLQueryExecuteError res)
    else Ret (mkCursor self_conn (body res)) in
  (request, handler).

(** The dictionary comprehension of [functions]:
    [{func['name']: func['code'] for func in map(dict, body)}], run over
    the items of [body] with the dictionary built so far.  [map] is lazy:
    an item is converted when the comprehension reaches it. *)
Fixpoint name_code_comprehension (items : list pyval) (acc : pydict)
  : outcome pydict :=
  match items with
  | [] => Ret acc
  | item :: rest =>
      func ← py_dict item;
      name ← py_getitem (PDict func) "name";
      code ← py_getitem (PDict func) "code";
      key ← hashable name;
      name_code_comprehension rest (<[ key := code ]> acc)
  end.

(** [functions(self)] *)
Definition functions : Request * (response -> outcome pyval) :=
  let request :=
    {| method := "get";
       endpoint := "/_api/aqlfunction";
       params := None;
       data := None |} in
  let handler (res : response) : outcome pyval :=
    if negb (status_in (status_code res) HTTP_OK)
    then Raise (AQLFunctionsListError res)
    else
      let body := if truthy (body res) then body res else PDict ∅ in
      items ← py_iter body;
      result ← name_code_comprehension items ∅;
      Ret (PDict result) in
  (request, handler).

(** [create_function(self, name, code)] *)
Definition create_function (name code : pyval)
  : Request * (response -> outcome pyval) :=
  let request :=
    {| method := "post";
       endpoint := "/_api/aqlfunction";
       params := None;
       data := Some {[ KStr "name" := name; KStr "code" := code ]} |} in
  let handler (res : response) : outcome pyval :=
    if negb (status_in (status_code res) [200; 201])
    then Raise (AQLFunctionCreateError res)
    else
      error ← py_getitem (body res) "error";
      Ret (py_not error) in
  (request, handler).

(** [delete_function(self, name, group=None, ignore_missing=False)] *)
Definition delete_function (name : string) (group ignore_missing : pyval)
  : Request * (response -> outcome pyval) :=
  let request :=
    {| method := "delete";
       endpoint := "/_api/aqlfunction/" ++ name;
       params :=
         Some (if is_not_None group
               then {[ KStr "group" := group ]}
               else ∅);
       data := None |} in
  let handler (res : response) : outcome pyval :=
    if negb (status_in (status_code res) HTTP_OK)
       && negb (Z.eqb (status_code res) 404 && truthy ignore_missing)
    then Raise (AQLFunctionDeleteError res)
    else
      error ← py_getitem (body res) "error";
      Ret (py_not error) in
  (request, handler).

End AQL.

(** ** class AQLQueryCache *)

Module AQLQueryCache.

(** [properties(self)] *)
Definition properties : Request * (response -> outcome pyval) :=
  let request :=
    {| method := "get";
       endpoint := "/_api/query-cache/properties";
       params := None;
       data := None |} in
  let handler (res : response) : outcome pyval :=
    if negb (status_in (status_code res) HTTP_OK)
    then Raise (AQLCacheGetPropertiesError res)
    else
      mode ← py_getitem (body res) "mode";
      limit ← py_getitem (body res) "maxResults";
      Ret (PDict {[ KStr "mode" := mode; KStr "limit" := limit ]}) in
  (request, handler).

(** [configure(self, mode=None, limit=None)] *)
Definition configure (mode limit : pyval)
  : Request * (response -> outcome pyval) :=
  let data : pydict := ∅ in
  let data :=
    if is_not_None mode then <[ KStr "mode" := mode ]> data else data in
  let data :=
    if is_not_None limit then <[ KStr "maxResults" := limit ]> data else data in
  let request :=
    {| method := "put";
       endpoint := "/_api/query-cache/properties";
       params := None;
       data := Some data |} in
  let handler (res : response) : outcome pyval :=
    if negb (status_in (status_code res) HTTP_OK)
    then Raise (AQLCacheConfigureError res)
    else
      mode ← py_getitem (body res) "mode";
      limit ← py_getitem (body res) "maxResults";
      Ret (PDict {[ KStr "mode" := mode; KStr "limit" := limit ]}) in
  (request, handler).

(** [clear(self)] *)
Definition clear : Request * (response -> outcome pyval) :=
  let request :=
    {| method := "delete";
       endpoint := "/_api/query-cache";
       params := None;
       data := None |} in
  let handler (res : response) : outcome pyval :=
    if negb (status_in (status_code res) HTTP_OK)
    then Raise (AQLCacheClearError res)
    else
      error ← py_getitem (body res) "error";
      Ret (py_not error) in
  (request, handler).

End AQLQueryCache.

(** The two components of what an API method returns. *)
Definition request_of {A : Type} (m : Request * (response -> outcome A)) : Request := m.1.
Definition handler_of {A : Type} (m : Request * (response -> outcome A))
  : response -> outcome A := m.2.

(** The body that a request carries, empty when it carries none. *)
Definition body_of (r : Request) : pydict := default ∅ (data r).

(** ** Vocabulary of the statements *)

(** An optional argument as the builders see it: supplied unless [None]. *)
Definition supplied (v : pyval) : option pyval :=
  if is_not_None v then Some v else None.

(** The built-in exceptions, as opposed to the classified errors of
    [arango.exceptions]. *)
Definition is_builtin (e : exn) : bool :=
  match e with
  | KeyError | TypeError | ValueError | AttributeError => true
  | _ => false
  end.

(** A handler fails with a built-in exception only. *)
Definition unclassified {A : Type} (m : outcome A) : Prop :=
  exists e, m = Raise e /\ is_builtin e = true.

(** Filling a dictionary with entries, first to last. *)
Definition insert_all (entries : list (hkey * pyval)) (acc : pydict) : pydict :=
  foldl (fun m e => <[ e.1 := e.2 ]> m) acc entries.

(** [func] is the description of one AQL function: a name, stored under the
    key of [entry], and the code of [entry]. *)
Definition describes (func : pydict) (entry : hkey * pyval) : Prop :=
  exists name : pyval,
    func !! KStr "name" = Some name
    /\ hashable name = Ret entry.1
    /\ func !! KStr "code" = Some entry.2.

(** The last statement of the handlers that answer
    [not res.body['error']]. *)
Definition not_error (res : response) : outcome pyval :=
  error ← py_getitem (body res) "error"; Ret (py_not error).

(** A handler that treats exactly the statuses of [codes] as success: it
    raises its classified error, built from the response, on every other
    status and on no status of [codes]. *)
Definition accepts {A : Type} (handler : response -> outcome A)
    (failure : response -> exn) (codes : list Z) : Prop :=
  forall res : response,
    handler res = Raise (failure res) <-> status_code res ∉ codes.

(** A handler that lets nothing escape but its own classified error, built
    from the response it was given, and built-in exceptions. *)
Definition raises_only {A : Type} (handler : response -> outcome A)
    (failure : response -> exn) : Prop :=
  forall (res : response) (e : exn),
    handler res = Raise e -> e = failure res \/ is_builtin e = true.

(** The options dictionary that a request body carries, empty when the body
    has none. *)
Definition options_of (r : Request) : pydict :=
  match body_of r !! KStr "options" with
  | Some (PDict options) => options
  | _ => ∅
  end.

(** ** Shared facts *)

Lemma status_in_true (status : Z) (codes : list Z) :
  status_in status codes = true <-> status ∈ codes.
Proof. unfold status_in. apply bool_decide_eq_true. Qed.

Lemma status_in_false (status : Z) (codes : list Z) :
  status_in status codes = false <-> status ∉ codes.
Proof. unfold status_in. apply bool_decide_eq_false. Qed.

Lemma getitem_present (d : pydict) (k : string) (v : pyval) :
  d !! KStr k = Some v -> py_getitem (PDict d) k = Ret v.
Proof. intros H. unfold py_getitem. rewrite H. reflexivity. Qed.

Lemma getitem_absent (d : pydict) (k : string) :
  d !! KStr k = None -> py_getitem (PDict d) k = Raise KeyError.
Proof. intros H. unfold py_getitem. rewrite H. reflexivity. Qed.

Lemma contains_present (d : pydict) (k : string) (v : pyval) :
  d !! KStr k = Some v -> py_contains k (PDict d) = Ret true.
Proof.
  intros H. simpl. f_equal. apply bool_decide_eq_true. rewrite H. eauto.
Qed.

Lemma contains_absent (d : pydict) (k : string) :
  d !! KStr k = None -> py_contains k (PDict d) = Ret false.
Proof.
  intros H. simpl. f_equal. apply bool_decide_eq_false. rewrite H.
  apply is_Some_None.
Qed.

#[local] Arguments py_getitem : simpl never.
#[local] Arguments py_contains : simpl never.
#[local] Arguments py_pop : simpl never.
#[local] Arguments py_iter : simpl never.
#[local] Arguments py_dict : simpl never.
#[local] Arguments hashable : simpl never.
#[local] Arguments truthy : simpl never.
#[local] Arguments status_in : simpl never.

#[local] Ltac handler_on Hok :=
  unfold handler_of; cbn; rewrite Hok; cbn.

(** ** The embedding run on concrete responses *)

Example contains_substring : py_contains "plan" (PStr "explanation") = Ret true.
Proof. vm_compute. reflexivity. Qed.

Example contains_list_element :
  py_contains "plan" (PList [PInt 1; PStr "plan"]) = Ret true.
Proof. vm_compute. reflexivity. Qed.

Example dict_of_pairs :
  (d ← py_dict (PList [PList [PStr "name"; PStr "ns::f"];
                        PList [PStr "code"; PStr "function(){}"]]);
   Ret (d !! KStr "name", d !! KStr "code"))
  = Ret (Some (PStr "ns::f"), Some (PStr "function(){}")).
Proof. vm_compute. reflexivity. Qed.

Example dict_of_two_letter_words :
  (d ← py_dict (PList [PStr "ab"]); Ret (d !! KStr "a")) = Ret (Some (PStr "b")).
Proof. vm_compute. reflexivity. Qed.

Example dict_of_word : py_dict (PStr "abc") = Raise ValueError.
Proof. vm_compute. reflexivity. Qed.

Example dict_of_number : py_dict (PInt 5) = Raise TypeError.
Proof. vm_compute. reflexivity. Qed.

Example explain_failure_status :
  handler_of (AQL.explain (PStr "RETURN 1") (PBool false) PNone PNone)
    (Response 500 PNone)
  = Raise (AQLQueryExplainError (Response 500 PNone)).
Proof. vm_compute. reflexivity. Qed.

Example explain_neither_field :
  handler_of (AQL.explain (PStr "RETURN 1") (PBool false) PNone PNone)
    (Response 200 (PDict {[ KStr "error" := PBool false ]}))
  = Raise KeyError.
Proof. vm_compute. reflexivity. Qed.

Example validate_list_body :
  handler_of (AQL.validate (PStr "RETURN 1")) (Response 200 (PList []))
  = Raise TypeError.
Proof. vm_compute. reflexivity. Qed.

Example validate_null_body :
  handler_of (AQL.validate (PStr "RETURN 1")) (Response 200 PNone)
  = Raise AttributeError.
Proof. vm_compute. reflexivity. Qed.

Example functions_list_of_numbers :
  handler_of AQL.functions (Response 200 (PList [PInt 5])) = Raise TypeError.
Proof. vm_compute. reflexivity. Qed.

Example functions_mapping_body :
  handler_of AQL.functions
    (Response 200 (PDict {[ KStr "result" := PList [] ]}))
  = Raise ValueError.
Proof. vm_compute. reflexivity. Qed.

Example functions_nameless_element :
  handler_of AQL.functions
    (Response 200 (PList [PDict {[ KStr "code" := PStr "function(){}" ]}]))
  = Raise KeyError.
Proof. vm_compute. reflexivity. Qed.

Example delete_function_request :
  endpoint (request_of (AQL.delete_function "ns::fn" PNone (PBool false)))
  = "/_api/aqlfunction/ns::fn"
  /\ params (request_of (AQL.delete_function "ns::fn" PNone (PBool false)))
     = Some ∅
  /\ params (request_of (AQL.delete_function "ns" (PBool true) (PBool false)))
     = Some {[ KStr "group" := PBool true ]}.
Proof. repeat split; vm_compute; reflexivity. Qed.

(** ** explain *)

(** What the handler of [explain] does with a dictionary body on a success
    status: the arguments of [explain] play no part in it. *)
Lemma explain_handler_plan (query all_plans max_plans opt_rules : pyval)
    (status : Z) (d : pydict) (plan : pyval) :
  status_in status HTTP_OK = true ->
  d !! KStr "plan" = Some plan ->
  handler_of (AQL.explain query all_plans max_plans opt_rules)
    (Response status (PDict d)) = Ret plan.
Proof.
  intros Hok Hplan. handler_on Hok.
  rewrite (contains_present d "plan" plan Hplan). cbn.
  by apply getitem_present.
Qed.

Lemma explain_handler_plans (query all_plans max_plans opt_rules : pyval)
    (status : Z) (d : pydict) (plans : pyval) :
  status_in status HTTP_OK = true ->
  d !! KStr "plan" = None ->
  d !! KStr "plans" = Some plans ->
  handler_of (AQL.explain query all_plans max_plans opt_rules)
    (Response status (PDict d)) = Ret plans.
Proof.
  intros Hok Hplan Hplans. handler_on Hok.
  rewrite (contains_absent d "plan" Hplan). cbn.
  by apply getitem_present.
Qed.

(** The options that [explain] sends, for any arguments. *)
Lemma explain_options (query all_plans max_plans opt_rules : pyval) :
  exists options : pydict,
    body_of (request_of (AQL.explain query all_plans max_plans opt_rules))
      !! KStr "options" = Some (PDict options)
    /\ options !! KStr "allPlans" = Some all_plans
    /\ options !! KStr "maxNumberOfPlans" =
         (if is_not_None max_plans then Some max_plans else None)
    /\ options !! KStr "optimizer" =
         (if is_not_None opt_rules
          then Some (PDict {[ KStr "rules" := opt_rules ]})
          else None)
    /\ dom options =
         {[ KStr "allPlans" ]}
         ∪ (if is_not_None max_plans then {[ KStr "maxNumberOfPlans" ]} else ∅)
         ∪ (if is_not_None opt_rules then {[ KStr "optimizer" ]} else ∅).
Proof.
  unfold request_of, body_of, AQL.explain. cbn.
  eexists. split; [by simplify_map_eq |].
  destruct (is_not_None max_plans), (is_not_None opt_rules);
    repeat split; try (by simplify_map_eq);
    rewrite ?dom_insert_L, ?dom_singleton_L; set_solver.
Qed.

(** C1, as stated, fails: a success response that carries both fields is
    answered with the [plan] field, also when [all_plans=True] was sent and a
    [plans] field is present. *)
Lemma explain_all_plans_both_fields :
  status_in 200 HTTP_OK = true
  /\ ({[ KStr "plan" := PStr "chosen";
         KStr "plans" := PList [PStr "first"; PStr "second"] ]} : pydict)
       !! KStr "plans" = Some (PList [PStr "first"; PStr "second"])
  /\ handler_of (AQL.explain (PStr "RETURN 1") (PBool true) PNone PNone)
       (Response 200
          (PDict {[ KStr "plan" := PStr "chosen";
                    KStr "plans" := PList [PStr "first"; PStr "second"] ]}))
     = Ret (PStr "chosen")
  /\ handler_of (AQL.explain (PStr "RETURN 1") (PBool true) PNone PNone)
       (Response 200
          (PDict {[ KStr "plan" := PStr "chosen";
                    KStr "plans" := PList [PStr "first"; PStr "second"] ]}))
     <> Ret (PList [PStr "first"; PStr "second"]).
Proof.
  assert (Hrun :
    handler_of (AQL.explain (PStr "RETURN 1") (PBool true) PNone PNone)
      (Response 200
         (PDict {[ KStr "plan" := PStr "chosen";
                   KStr "plans" := PList [PStr "first"; PStr "second"] ]}))
    = Ret (PStr "chosen")) by (vm_compute; reflexivity).
  repeat split; try (vm_compute; reflexivity).
  rewrite Hrun. discriminate.
Qed.

(** C1 (amended): [explain(query, all_plans=True)] sends options that contain
    [allPlans: True]; on a success status its handler returns the [plans]
    field when the body has one and has no [plan] field, and returns the
    [plan] field whenever the body has one; the handler of [explain(query)],
    all arguments left at their defaults, returns the [plan] field of a body
    that has one. *)
Theorem explain_all_plans (query max_plans opt_rules : pyval) :
  (exists options : pydict,
     body_of (request_of (AQL.explain query (PBool true) max_plans opt_rules))
       !! KStr "options" = Some (PDict options)
     /\ options !! KStr "allPlans" = Some (PBool true))
  /\ (forall (status : Z) (d : pydict) (plans : pyval),
        status_in status HTTP_OK = true ->
        d !! KStr "plan" = None ->
        d !! KStr "plans" = Some plans ->
        handler_of (AQL.explain query (PBool true) max_plans opt_rules)
          (Response status (PDict d)) = Ret plans)
  /\ (forall (status : Z) (d : pydict) (plan : pyval),
        status_in status HTTP_OK = true ->
        d !! KStr "plan" = Some plan ->
        handler_of (AQL.explain query (PBool true) max_plans opt_rules)
          (Response status (PDict d)) = Ret plan)
  /\ (forall (status : Z) (d : pydict) (plan : pyval),
        status_in status HTTP_OK = true ->
        d !! KStr "plan" = Some plan ->
        handler_of (AQL.explain query (PBool false) PNone PNone)
          (Response status (PDict d)) = Ret plan).
Proof.
  split; [| split; [| split]].
  - destruct (explain_options query (PBool true) max_plans opt_rules)
      as (options & Hopt & Hall & _).
    exists options. split; assumption.
  - intros status d plans. apply explain_handler_plans.
  - intros status d plan. apply explain_handler_plan.
  - intros status d plan. apply explain_handler_plan.
Qed.

Lemma explain_all_plans_witness :
  (status_in 200 HTTP_OK = true
   /\ ({[ KStr "plans" := PList [PStr "first"] ]} : pydict) !! KStr "plan" = None
   /\ ({[ KStr "plans" := PList [PStr "first"] ]} : pydict) !! KStr "plans"
      = Some (PList [PStr "first"])
   /\ handler_of (AQL.explain (PStr "RETURN 1") (PBool true) PNone PNone)
        (Response 200 (PDict {[ KStr "plans" := PList [PStr "first"] ]}))
      = Ret (PList [PStr "first"]))
  /\ (({[ KStr "plan" := PStr "chosen" ]} : pydict) !! KStr "plan"
      = Some (PStr "chosen")
     /\ handler_of (AQL.explain (PStr "RETURN 1") (PBool true) PNone PNone)
          (Response 200 (PDict {[ KStr "plan" := PStr "chosen" ]}))
        = Ret (PStr "chosen")
     /\ handler_of (AQL.explain (PStr "RETURN 1") (PBool false) PNone PNone)
          (Response 200 (PDict {[ KStr "plan" := PStr "chosen" ]}))
        = Ret (PStr "chosen")).
Proof.
  destruct (explain_all_plans (PStr "RETURN 1") PNone PNone)
    as (_ & Hplans & Hplan & Hdefault).
  split.
  - split; [reflexivity |]. split; [vm_compute; reflexivity |].
    split; [vm_compute; reflexivity |].
    apply Hplans; vm_compute; reflexivity.
  - split; [vm_compute; reflexivity |]. split.
    + apply Hplan; vm_compute; reflexivity.
    + apply Hdefault; vm_compute; reflexivity.
Defined.

(** C2, as stated, fails for [all_plans]: a call that leaves every optional
    argument at its default still sends the key [allPlans], with the client's
    default [False]. *)
Lemma explain_default_sends_allPlans :
  body_of (request_of (AQL.explain (PStr "RETURN 1") (PBool false) PNone PNone))
    !! KStr "options"
  = Some (PDict {[ KStr "allPlans" := PBool false ]}).
Proof. vm_compute. reflexivity. Qed.

(** C2 (amended): the request body of [explain] is [query] and [options];
    the options always hold [allPlans] with the value of [all_plans] (the
    default [False] included), hold [maxNumberOfPlans] exactly when
    [max_plans] is not [None] and [optimizer] (as [{'rules': opt_rules}])
    exactly when [opt_rules] is not [None], and hold no other key. *)
Theorem explain_optional_arguments (query all_plans max_plans opt_rules : pyval) :
  exists options : pydict,
    body_of (request_of (AQL.explain query all_plans max_plans opt_rules))
    = {[ KStr "query" := query; KStr "options" := PDict options ]}
    /\ options !! KStr "allPlans" = Some all_plans
    /\ options !! KStr "maxNumberOfPlans" =
         (if is_not_None max_plans then Some max_plans else None)
    /\ options !! KStr "optimizer" =
         (if is_not_None opt_rules
          then Some (PDict {[ KStr "rules" := opt_rules ]})
          else None)
    /\ dom options =
         {[ KStr "allPlans" ]}
         ∪ (if is_not_None max_plans then {[ KStr "maxNumberOfPlans" ]} else ∅)
         ∪ (if is_not_None opt_rules then {[ KStr "optimizer" ]} else ∅).
Proof.
  destruct (explain_options query all_plans max_plans opt_rules)
    as (options & Hopt & Hrest).
  exists options. split; [| exact Hrest].
  revert Hopt. unfold request_of, body_of, AQL.explain. cbn.
  rewrite lookup_insert_ne by discriminate. rewrite lookup_singleton_eq.
  intros [= <-]. reflexivity.
Qed.

(** ** delete_function *)

Lemma getitem_raises_builtin (v : pyval) (k : string) (e : exn) :
  py_getitem v k = Raise e -> is_builtin e = true.
Proof.
  unfold py_getitem. destruct v; try (intros [= <-]; reflexivity).
  destruct (d !! KStr k); [discriminate | intros [= <-]; reflexivity].
Qed.

Lemma not_error_present (status : Z) (d : pydict) (error : pyval) :
  d !! KStr "error" = Some error ->
  not_error (Response status (PDict d)) = Ret (PBool (negb (truthy error))).
Proof.
  intros H. unfold not_error. cbn.
  rewrite (getitem_present d "error" error H). reflexivity.
Qed.

Lemma not_error_absent (status : Z) (d : pydict) :
  d !! KStr "error" = None ->
  not_error (Response status (PDict d)) = Raise KeyError.
Proof.
  intros H. unfold not_error. cbn.
  rewrite (getitem_absent d "error" H). reflexivity.
Qed.

Lemma not_error_raises_builtin (res : response) (e : exn) :
  not_error res = Raise e -> is_builtin e = true.
Proof.
  unfold not_error.
  destruct (py_getitem (body res) "error") as [x | e'] eqn:Hget; cbn.
  - discriminate.
  - intros [= <-]. eapply getitem_raises_builtin, Hget.
Qed.

Lemma delete_handler_suppressed (name : string) (group ignore_missing body : pyval) :
  truthy ignore_missing = true ->
  handler_of (AQL.delete_function name group ignore_missing) (Response 404 body)
  = not_error (Response 404 body).
Proof.
  intros Him. unfold handler_of, not_error. cbn. rewrite Him. reflexivity.
Qed.

Lemma delete_handler_ok (name : string) (group ignore_missing : pyval)
    (res : response) :
  status_in (status_code res) HTTP_OK = true ->
  handler_of (AQL.delete_function name group ignore_missing) res = not_error res.
Proof. intros Hok. unfold handler_of, not_error. cbn. rewrite Hok. reflexivity. Qed.

Lemma delete_handler_raise (name : string) (group ignore_missing : pyval)
    (res : response) :
  status_in (status_code res) HTTP_OK = false ->
  Z.eqb (status_code res) 404 && truthy ignore_missing = false ->
  handler_of (AQL.delete_function name group ignore_missing) res
  = Raise (AQLFunctionDeleteError res).
Proof.
  intros Hok H404. unfold handler_of. cbn. rewrite Hok, H404. reflexivity.
Qed.

(** C3, as stated, fails: a not-found response whose body has no [error]
    field makes [delete_function(name, ignore_missing=True)] raise. *)
Lemma delete_function_not_found_bare_body :
  handler_of (AQL.delete_function "ns::fn" PNone (PBool true))
    (Response 404 (PDict ∅)) = Raise KeyError.
Proof. vm_compute. reflexivity. Qed.

(** C3 (amended): on a not-found (404) response, with [ignore_missing] true,
    [delete_function] never raises [AQLFunctionDeleteError], and returns
    (the negation of the [error] field) when the body is a mapping that has
    an [error] field; with [ignore_missing] false it raises
    [AQLFunctionDeleteError] on the same response; on any other non-success
    status it raises [AQLFunctionDeleteError] whatever [ignore_missing] is. *)
Theorem delete_function_not_found (name : string) (group : pyval) :
  (forall (ignore_missing body : pyval) (res : response),
     truthy ignore_missing = true ->
     handler_of (AQL.delete_function name group ignore_missing)
       (Response 404 body) <> Raise (AQLFunctionDeleteError res))
  /\ (forall (ignore_missing : pyval) (d : pydict) (error : pyval),
        truthy ignore_missing = true ->
        d !! KStr "error" = Some error ->
        handler_of (AQL.delete_function name group ignore_missing)
          (Response 404 (PDict d)) = Ret (PBool (negb (truthy error))))
  /\ (forall ignore_missing body : pyval,
        truthy ignore_missing = false ->
        handler_of (AQL.delete_function name group ignore_missing)
          (Response 404 body)
        = Raise (AQLFunctionDeleteError (Response 404 body)))
  /\ (forall (ignore_missing : pyval) (res : response),
        status_in (status_code res) HTTP_OK = false ->
        status_code res <> 404 ->
        handler_of (AQL.delete_function name group ignore_missing) res
        = Raise (AQLFunctionDeleteError res)).
Proof.
  split; [| split; [| split]].
  - intros im body res Him Hraise.
    rewrite delete_handler_suppressed in Hraise by exact Him.
    apply not_error_raises_builtin in Hraise. discriminate.
  - intros im d error Him Herr.
    rewrite delete_handler_suppressed by exact Him.
    by apply not_error_present.
  - intros im body Him. apply delete_handler_raise; [reflexivity |].
    cbn. exact Him.
  - intros im res Hok H404. apply delete_handler_raise; [exact Hok |].
    apply andb_false_iff. left. by apply Z.eqb_neq.
Qed.

Lemma delete_function_not_found_witness :
  truthy (PBool true) = true
  /\ truthy (PBool false) = false
  /\ ({[ KStr "error" := PBool true ]} : pydict) !! KStr "error"
     = Some (PBool true)
  /\ status_in 500 HTTP_OK = false
  /\ handler_of (AQL.delete_function "ns::fn" PNone (PBool true))
       (Response 404 (PDict {[ KStr "error" := PBool true ]}))
     <> Raise (AQLFunctionDeleteError
                (Response 404 (PDict {[ KStr "error" := PBool true ]})))
  /\ handler_of (AQL.delete_function "ns::fn" PNone (PBool true))
       (Response 404 (PDict {[ KStr "error" := PBool true ]}))
     = Ret (PBool (negb (truthy (PBool true))))
  /\ handler_of (AQL.delete_function "ns::fn" PNone (PBool false))
       (Response 404 (PDict {[ KStr "error" := PBool true ]}))
     = Raise (AQLFunctionDeleteError
               (Response 404 (PDict {[ KStr "error" := PBool true ]})))
  /\ handler_of (AQL.delete_function "ns::fn" PNone (PBool true))
       (Response 500 PNone)
     = Raise (AQLFunctionDeleteError (Response 500 PNone)).
Proof.
  destruct (delete_function_not_found "ns::fn" PNone)
    as (Hnever & Hreturn & Hraise & Hother).
  split; [reflexivity |]. split; [reflexivity |].
  split; [vm_compute; reflexivity |]. split; [reflexivity |].
  split; [| split; [| split]].
  - apply Hnever. reflexivity.
  - apply Hreturn; [reflexivity | vm_compute; reflexivity].
  - apply Hraise. reflexivity.
  - apply Hother; [reflexivity | cbn; lia].
Defined.

(** C9: when [delete_function] suppresses the not-found error (status 404,
    [ignore_missing] true), its result is still the negation of the [error]
    field of the body: a body that reports [error: True] gives [False], and
    a body without an [error] field makes the handler fail with [KeyError],
    which is none of the classified errors. *)
Theorem delete_function_suppressed_result (name : string)
    (group ignore_missing : pyval) (d : pydict) :
  truthy ignore_missing = true ->
  (forall error : pyval,
     d !! KStr "error" = Some error ->
     handler_of (AQL.delete_function name group ignore_missing)
       (Response 404 (PDict d)) = Ret (py_not error))
  /\ (d !! KStr "error" = Some (PBool true) ->
      handler_of (AQL.delete_function name group ignore_missing)
        (Response 404 (PDict d)) = Ret (PBool false))
  /\ (d !! KStr "error" = None ->
      handler_of (AQL.delete_function name group ignore_missing)
        (Response 404 (PDict d)) = Raise KeyError
      /\ unclassified
           (handler_of (AQL.delete_function name group ignore_missing)
              (Response 404 (PDict d)))).
Proof.
  intros Him. rewrite delete_handler_suppressed by exact Him.
  split; [| split].
  - intros error Herr. by apply not_error_present.
  - intros Herr. by rewrite (not_error_present 404 d (PBool true) Herr).
  - intros Herr. rewrite (not_error_absent 404 d Herr).
    split; [reflexivity |]. exists KeyError. split; reflexivity.
Qed.

Lemma delete_function_suppressed_result_witness :
  truthy (PBool true) = true
  /\ handler_of (AQL.delete_function "ns::fn" PNone (PBool true))
       (Response 404 (PDict {[ KStr "error" := PBool true;
                               KStr "code" := PInt 404 ]}))
     = Ret (PBool false)
  /\ handler_of (AQL.delete_function "ns::fn" PNone (PBool true))
       (Response 404 (PDict {[ KStr "code" := PInt 404 ]}))
     = Raise KeyError.
Proof.
  split; [reflexivity |]. split.
  - apply (delete_function_suppressed_result "ns::fn" PNone (PBool true)
             {[ KStr "error" := PBool true; KStr "code" := PInt 404 ]});
      [reflexivity | vm_compute; reflexivity].
  - apply (delete_function_suppressed_result "ns::fn" PNone (PBool true)
             {[ KStr "code" := PInt 404 ]});
      [reflexivity | vm_compute; reflexivity].
Defined.

(** ** What can escape from the Python operations *)

Lemma bind_raises_builtin {A B : Type} (m : outcome A) (k : A -> outcome B)
    (e : exn) :
  (forall e', m = Raise e' -> is_builtin e' = true) ->
  (forall a e', k a = Raise e' -> is_builtin e' = true) ->
  m ≫= k = Raise e -> is_builtin e = true.
Proof.
  intros Hm Hk. destruct m as [a | e']; cbn.
  - apply Hk.
  - intros [= <-]. by apply Hm.
Qed.

Lemma contains_raises_builtin (k : string) (v : pyval) (e : exn) :
  py_contains k v = Raise e -> is_builtin e = true.
Proof. destruct v; cbn; intros [= <-]; reflexivity. Qed.

Lemma pop_raises_builtin (v : pyval) (k : string) (e : exn) :
  py_pop v k = Raise e -> is_builtin e = true.
Proof. destruct v; cbn; intros [= <-]; reflexivity. Qed.

Lemma iter_raises_builtin (v : pyval) (e : exn) :
  py_iter v = Raise e -> is_builtin e = true.
Proof. destruct v; cbn; intros [= <-]; reflexivity. Qed.

Lemma hashable_raises_builtin (v : pyval) (e : exn) :
  hashable v = Raise e -> is_builtin e = true.
Proof. destruct v; cbn; intros [= <-]; reflexivity. Qed.

Lemma pair_of_raises_builtin (item : pyval) (e : exn) :
  pair_of item = Raise e -> is_builtin e = true.
Proof.
  unfold pair_of. destruct (py_iter item) as [[| k [| v [| w l]]] | e'];
    try (intros [= <-]; reflexivity).
  apply bind_raises_builtin; [apply hashable_raises_builtin | discriminate].
Qed.

Lemma dict_update_raises_builtin (items : list pyval) (d : pydict) (e : exn) :
  dict_update items d = Raise e -> is_builtin e = true.
Proof.
  revert d e. induction items as [| item rest IH]; intros d e; cbn.
  - discriminate.
  - apply bind_raises_builtin; [apply pair_of_raises_builtin |].
    intros kv e'. apply IH.
Qed.

Lemma dict_raises_builtin (v : pyval) (e : exn) :
  py_dict v = Raise e -> is_builtin e = true.
Proof.
  unfold py_dict. destruct v; try discriminate;
    (apply bind_raises_builtin;
     [apply iter_raises_builtin
     | intros items e'; apply dict_update_raises_builtin]).
Qed.

Lemma comprehension_raises_builtin (items : list pyval) (acc : pydict) (e : exn) :
  AQL.name_code_comprehension items acc = Raise e -> is_builtin e = true.
Proof.
  revert acc e. induction items as [| item rest IH]; intros acc e; cbn.
  - discriminate.
  - apply bind_raises_builtin; [apply dict_raises_builtin |]. intros func e1.
    apply bind_raises_builtin; [apply getitem_raises_builtin |]. intros name e2.
    apply bind_raises_builtin; [apply getitem_raises_builtin |]. intros code e3.
    apply bind_raises_builtin; [apply hashable_raises_builtin |]. intros key e4.
    apply IH.
Qed.

(** A handler that is a status guard followed by Python operations accepts
    exactly the guarded statuses. *)
Lemma accepts_guard {A : Type} (codes : list Z) (failure : response -> exn)
    (rest : response -> outcome A) :
  (forall res, is_builtin (failure res) = false) ->
  (forall res e, rest res = Raise e -> is_builtin e = true) ->
  accepts (fun res => if negb (status_in (status_code res) codes)
                      then Raise (failure res) else rest res)
          failure codes.
Proof.
  intros Hfail Hrest res. rewrite <- status_in_false.
  destruct (status_in (status_code res) codes); cbn.
  - split; [| discriminate]. intros H. apply Hrest in H.
    rewrite Hfail in H. discriminate.
  - split; reflexivity.
Qed.

(** ** The statuses each handler accepts *)

Lemma explain_accepts (query all_plans max_plans opt_rules : pyval) :
  accepts (handler_of (AQL.explain query all_plans max_plans opt_rules))
    AQLQueryExplainError HTTP_OK.
Proof.
  apply (accepts_guard HTTP_OK AQLQueryExplainError
           (fun res => has_plan ← py_contains "plan" (body res);
                       py_getitem (body res)
                         (if has_plan : bool then "plan" else "plans")));
    [reflexivity |].
  intros res e. apply bind_raises_builtin; [apply contains_raises_builtin |].
  intros has_plan e'. apply getitem_raises_builtin.
Qed.

Lemma validate_accepts (query : pyval) :
  accepts (handler_of (AQL.validate query)) AQLQueryValidateError HTTP_OK.
Proof.
  apply (accepts_guard HTTP_OK AQLQueryValidateError
           (fun res => body1 ← py_pop (body res) "code";
                       body2 ← py_pop body1 "error";
                       Ret body2));
    [reflexivity |].
  intros res e. apply bind_raises_builtin; [apply pop_raises_builtin |].
  intros body1 e1. apply bind_raises_builtin; [apply pop_raises_builtin |].
  discriminate.
Qed.

Lemma execute_accepts {connection : Type} (self_conn : connection)
    (query count batch_size ttl bind_vars full_count max_plans
       optimizer_rules : pyval) :
  accepts (handler_of (AQL.execute self_conn query count batch_size ttl
                         bind_vars full_count max_plans optimizer_rules))
    AQLQueryExecuteError HTTP_OK.
Proof.
  apply (accepts_guard HTTP_OK AQLQueryExecuteError
           (fun res => Ret (mkCursor self_conn (body res))));
    [reflexivity | discriminate].
Qed.

Lemma functions_accepts :
  accepts (handler_of AQL.functions) AQLFunctionsListError HTTP_OK.
Proof.
  apply (accepts_guard HTTP_OK AQLFunctionsListError
           (fun res =>
              items ← py_iter (if truthy (body res) then body res else PDict ∅);
              result ← AQL.name_code_comprehension items ∅;
              Ret (PDict result)));
    [reflexivity |].
  intros res e. apply bind_raises_builtin; [apply iter_raises_builtin |].
  intros items e1.
  apply bind_raises_builtin; [apply comprehension_raises_builtin |].
  discriminate.
Qed.

Lemma create_function_accepts (name code : pyval) :
  accepts (handler_of (AQL.create_function name code))
    AQLFunctionCreateError [200; 201].
Proof.
  apply (accepts_guard [200; 201] AQLFunctionCreateError not_error);
    [reflexivity | apply not_error_raises_builtin].
Qed.

Lemma delete_function_accepts (name : string) (group ignore_missing : pyval) :
  accepts (handler_of (AQL.delete_function name group ignore_missing))
    AQLFunctionDeleteError
    (if truthy ignore_missing then HTTP_OK ++ [404] else HTTP_OK).
Proof.
  intros res. destruct (status_in (status_code res) HTTP_OK) eqn:Hok.
  - rewrite delete_handler_ok by exact Hok. apply status_in_true in Hok.
    split.
    + intros H. apply not_error_raises_builtin in H. discriminate.
    + intros H. exfalso. apply H.
      destruct (truthy ignore_missing); [apply elem_of_app; by left | exact Hok].
  - destruct (Z.eqb (status_code res) 404 && truthy ignore_missing) eqn:H404.
    + apply andb_true_iff in H404 as [H404 Him]. apply Z.eqb_eq in H404.
      destruct res as [status body]. cbn in H404. subst status.
      rewrite delete_handler_suppressed by exact Him. rewrite Him. split.
      * intros H. apply not_error_raises_builtin in H. discriminate.
      * intros H. exfalso. apply H. cbn. set_solver.
    + rewrite delete_handler_raise by assumption.
      split; [| reflexivity]. intros _.
      apply status_in_false in Hok.
      apply andb_false_iff in H404 as [H404 | Him].
      * apply Z.eqb_neq in H404.
        destruct (truthy ignore_missing); [| exact Hok].
        rewrite elem_of_app. intros [H | H]; [by apply Hok |].
        apply list_elem_of_singleton in H. by apply H404.
      * rewrite Him. exact Hok.
Qed.

Lemma properties_accepts :
  accepts (handler_of AQLQueryCache.properties) AQLCacheGetPropertiesError HTTP_OK.
Proof.
  apply (accepts_guard HTTP_OK AQLCacheGetPropertiesError
           (fun res =>
              mode ← py_getitem (body res) "mode";
              limit ← py_getitem (body res) "maxResults";
              Ret (PDict {[ KStr "mode" := mode; KStr "limit" := limit ]})));
    [reflexivity |].
  intros res e. apply bind_raises_builtin; [apply getitem_raises_builtin |].
  intros mode e1. apply bind_raises_builtin; [apply getitem_raises_builtin |].
  discriminate.
Qed.

Lemma configure_accepts (mode limit : pyval) :
  accepts (handler_of (AQLQueryCache.configure mode limit))
    AQLCacheConfigureError HTTP_OK.
Proof.
  apply (accepts_guard HTTP_OK AQLCacheConfigureError
           (fun res =>
              mode ← py_getitem (body res) "mode";
              limit ← py_getitem (body res) "maxResults";
              Ret (PDict {[ KStr "mode" := mode; KStr "limit" := limit ]})));
    [reflexivity |].
  intros res e. apply bind_raises_builtin; [apply getitem_raises_builtin |].
  intros mode' e1. apply bind_raises_builtin; [apply getitem_raises_builtin |].
  discriminate.
Qed.

Lemma clear_accepts :
  accepts (handler_of AQLQueryCache.clear) AQLCacheClearError HTTP_OK.
Proof.
  apply (accepts_guard HTTP_OK AQLCacheClearError not_error);
    [reflexivity | apply not_error_raises_builtin].
Qed.

(** C6: the handler of [create_function] raises [AQLFunctionCreateError]
    exactly when the status is not 200 or 201, and on 200 or 201 returns the
    negation of the [error] field of the body; the handlers of the other
    operations accept the wider set 200..206 (and [delete_function], when
    asked to ignore missing functions, 404 as well). *)
Theorem create_function_status (name code : pyval) :
  accepts (handler_of (AQL.create_function name code))
    AQLFunctionCreateError [200; 201]
  /\ (forall (status : Z) (d : pydict) (error : pyval),
        status ∈ [200; 201] ->
        d !! KStr "error" = Some error ->
        handler_of (AQL.create_function name code) (Response status (PDict d))
        = Ret (PBool (negb (truthy error))))
  /\ (forall query all_plans max_plans opt_rules : pyval,
        accepts (handler_of (AQL.explain query all_plans max_plans opt_rules))
          AQLQueryExplainError [200; 201; 202; 203; 204; 205; 206])
  /\ (forall query : pyval,
        accepts (handler_of (AQL.validate query))
          AQLQueryValidateError [200; 201; 202; 203; 204; 205; 206])
  /\ (forall (connection : Type) (self_conn : connection)
        (query count batch_size ttl bind_vars full_count max_plans
           optimizer_rules : pyval),
        accepts (handler_of (AQL.execute self_conn query count batch_size ttl
                               bind_vars full_count max_plans optimizer_rules))
          AQLQueryExecuteError [200; 201; 202; 203; 204; 205; 206])
  /\ accepts (handler_of AQL.functions)
       AQLFunctionsListError [200; 201; 202; 203; 204; 205; 206]
  /\ (forall (fname : string) (group ignore_missing : pyval),
        accepts (handler_of (AQL.delete_function fname group ignore_missing))
          AQLFunctionDeleteError
          (if truthy ignore_missing
           then [200; 201; 202; 203; 204; 205; 206; 404]
           else [200; 201; 202; 203; 204; 205; 206]))
  /\ accepts (handler_of AQLQueryCache.properties)
       AQLCacheGetPropertiesError [200; 201; 202; 203; 204; 205; 206]
  /\ (forall mode limit : pyval,
        accepts (handler_of (AQLQueryCache.configure mode limit))
          AQLCacheConfigureError [200; 201; 202; 203; 204; 205; 206])
  /\ accepts (handler_of AQLQueryCache.clear)
       AQLCacheClearError [200; 201; 202; 203; 204; 205; 206].
Proof.
  split; [apply create_function_accepts |].
  split.
  { intros status d error Hstatus Herr. apply status_in_true in Hstatus.
    unfold handler_of. cbn. rewrite Hstatus. cbn.
    by apply (not_error_present status). }
  split; [apply explain_accepts |].
  split; [apply validate_accepts |].
  split; [intros connection self_conn; apply execute_accepts |].
  split; [apply functions_accepts |].
  split; [apply delete_function_accepts |].
  split; [apply properties_accepts |].
  split; [apply configure_accepts | apply clear_accepts].
Qed.

Lemma create_function_status_witness :
  ((201 ∈ [200; 201])
   /\ ({[ KStr "error" := PBool false; KStr "code" := PInt 201 ]} : pydict)
        !! KStr "error" = Some (PBool false)
   /\ handler_of (AQL.create_function (PStr "ns::f") (PStr "function(){}"))
        (Response 201
           (PDict {[ KStr "error" := PBool false; KStr "code" := PInt 201 ]}))
      = Ret (PBool (negb (truthy (PBool false)))))
  /\ ((202 ∉ [200; 201])
      /\ handler_of (AQL.create_function (PStr "ns::f") (PStr "function(){}"))
           (Response 202 (PDict {[ KStr "error" := PBool false ]}))
         = Raise (AQLFunctionCreateError
                    (Response 202 (PDict {[ KStr "error" := PBool false ]})))).
Proof.
  destruct (create_function_status (PStr "ns::f") (PStr "function(){}"))
    as (Haccepts & Hreturn & _).
  split.
  - assert (Hin : 201 ∈ [200; 201]) by (apply status_in_true; reflexivity).
    split; [exact Hin |]. split; [vm_compute; reflexivity |].
    apply Hreturn; [exact Hin | vm_compute; reflexivity].
  - assert (Hout : 202 ∉ [200; 201]).
    { intros H. apply status_in_true in H. discriminate H. }
    split; [exact Hout |].
    apply (Haccepts (Response 202 (PDict {[ KStr "error" := PBool false ]}))).
    exact Hout.
Defined.

(** ** validate *)

(** C7: on a success status the handler of [validate] returns the body
    without its [code] and [error] fields, every other key of the body
    keeping its value; on any other status it raises
    [AQLQueryValidateError]. *)
Theorem validate_strips_code_error (query : pyval) :
  (forall (status : Z) (d : pydict),
     status_in status HTTP_OK = true ->
     exists d' : pydict,
       handler_of (AQL.validate query) (Response status (PDict d))
       = Ret (PDict d')
       /\ d' !! KStr "code" = None
       /\ d' !! KStr "error" = None
       /\ (forall k : hkey,
             k <> KStr "code" -> k <> KStr "error" -> d' !! k = d !! k))
  /\ (forall res : response,
        status_in (status_code res) HTTP_OK = false ->
        handler_of (AQL.validate query) res = Raise (AQLQueryValidateError res)).
Proof.
  split.
  - intros status d Hok.
    exists (delete (KStr "error") (delete (KStr "code") d)).
    split; [handler_on Hok; reflexivity |].
    split; [by simplify_map_eq |]. split; [by simplify_map_eq |].
    intros k Hcode Herror. by simplify_map_eq.
  - intros res Hok. handler_on Hok. reflexivity.
Qed.

Lemma validate_strips_code_error_witness :
  status_in 200 HTTP_OK = true
  /\ status_in 400 HTTP_OK = false
  /\ (exists d' : pydict,
        handler_of (AQL.validate (PStr "RETURN 1"))
          (Response 200
             (PDict {[ KStr "code" := PInt 200; KStr "error" := PBool false;
                       KStr "parsed" := PBool true ]}))
        = Ret (PDict d')
        /\ d' !! KStr "code" = None
        /\ d' !! KStr "error" = None
        /\ d' !! KStr "parsed" = Some (PBool true))
  /\ handler_of (AQL.validate (PStr "RETURN 1")) (Response 400 PNone)
     = Raise (AQLQueryValidateError (Response 400 PNone)).
Proof.
  destruct (validate_strips_code_error (PStr "RETURN 1")) as (Hok & Hfail).
  split; [reflexivity |]. split; [reflexivity |]. split.
  - destruct (Hok 200
                {[ KStr "code" := PInt 200; KStr "error" := PBool false;
                   KStr "parsed" := PBool true ]} eq_refl)
      as (d' & Hret & Hcode & Herror & Hrest).
    exists d'. split; [exact Hret |]. split; [exact Hcode |].
    split; [exact Herror |].
    rewrite (Hrest (KStr "parsed")) by discriminate.
    vm_compute. reflexivity.
  - apply Hfail. reflexivity.
Defined.

(** ** Cache properties *)

Lemma cache_decode_present (status : Z) (d : pydict) (mode limit : pyval) :
  d !! KStr "mode" = Some mode ->
  d !! KStr "maxResults" = Some limit ->
  (mode' ← py_getitem (body (Response status (PDict d))) "mode";
   limit' ← py_getitem (body (Response status (PDict d))) "maxResults";
   Ret (PDict {[ KStr "mode" := mode'; KStr "limit" := limit' ]}))
  = Ret (PDict {[ KStr "mode" := mode; KStr "limit" := limit ]}).
Proof.
  intros Hmode Hlimit. cbn.
  rewrite (getitem_present d "mode" mode Hmode). cbn.
  rewrite (getitem_present d "maxResults" limit Hlimit). reflexivity.
Qed.

Lemma cache_decode_absent (status : Z) (d : pydict) :
  d !! KStr "mode" = None \/ d !! KStr "maxResults" = None ->
  (mode' ← py_getitem (body (Response status (PDict d))) "mode";
   limit' ← py_getitem (body (Response status (PDict d))) "maxResults";
   Ret (PDict {[ KStr "mode" := mode'; KStr "limit" := limit' ]}))
  = Raise KeyError.
Proof.
  intros Hmissing. cbn.
  destruct (d !! KStr "mode") as [mode |] eqn:Hmode.
  - destruct Hmissing as [? | Hlimit]; [discriminate |].
    rewrite (getitem_present d "mode" mode Hmode). cbn.
    rewrite (getitem_absent d "maxResults" Hlimit). reflexivity.
  - rewrite (getitem_absent d "mode" Hmode). reflexivity.
Qed.

(** C8: on a success status, with a body that has both fields, the handlers
    of the cache [properties] and [configure] return exactly
    [{'mode': body['mode'], 'limit': body['maxResults']}]; when the body
    lacks either field they raise ([KeyError]) and substitute no default. *)
Theorem cache_properties_decoding (status : Z) (d : pydict)
    (mode_arg limit_arg : pyval) :
  status_in status HTTP_OK = true ->
  (forall mode limit : pyval,
     d !! KStr "mode" = Some mode ->
     d !! KStr "maxResults" = Some limit ->
     handler_of AQLQueryCache.properties (Response status (PDict d))
     = Ret (PDict {[ KStr "mode" := mode; KStr "limit" := limit ]})
     /\ handler_of (AQLQueryCache.configure mode_arg limit_arg)
          (Response status (PDict d))
        = Ret (PDict {[ KStr "mode" := mode; KStr "limit" := limit ]}))
  /\ (d !! KStr "mode" = None \/ d !! KStr "maxResults" = None ->
      handler_of AQLQueryCache.properties (Response status (PDict d))
      = Raise KeyError
      /\ handler_of (AQLQueryCache.configure mode_arg limit_arg)
           (Response status (PDict d))
         = Raise KeyError).
Proof.
  intros Hok. split.
  - intros mode limit Hmode Hlimit.
    split; handler_on Hok; by apply (cache_decode_present status).
  - intros Hmissing.
    split; handler_on Hok; by apply (cache_decode_absent status).
Qed.

Lemma cache_properties_decoding_witness :
  status_in 200 HTTP_OK = true
  /\ (handler_of AQLQueryCache.properties
        (Response 200
           (PDict {[ KStr "mode" := PStr "demand"; KStr "maxResults" := PInt 128 ]}))
      = Ret (PDict {[ KStr "mode" := PStr "demand"; KStr "limit" := PInt 128 ]})
      /\ handler_of (AQLQueryCache.configure PNone (PInt 128))
           (Response 200
              (PDict {[ KStr "mode" := PStr "demand";
                        KStr "maxResults" := PInt 128 ]}))
         = Ret (PDict {[ KStr "mode" := PStr "demand"; KStr "limit" := PInt 128 ]}))
  /\ (handler_of AQLQueryCache.properties
        (Response 200 (PDict {[ KStr "mode" := PStr "demand" ]}))
      = Raise KeyError
      /\ handler_of (AQLQueryCache.configure PNone (PInt 128))
           (Response 200 (PDict {[ KStr "mode" := PStr "demand" ]}))
         = Raise KeyError).
Proof.
  split; [reflexivity |]. split.
  - apply (cache_properties_decoding 200
             {[ KStr "mode" := PStr "demand"; KStr "maxResults" := PInt 128 ]}
             PNone (PInt 128) eq_refl);
      vm_compute; reflexivity.
  - apply (cache_properties_decoding 200 {[ KStr "mode" := PStr "demand" ]}
             PNone (PInt 128) eq_refl).
    right. vm_compute. reflexivity.
Defined.

(** ** Request bodies of execute and configure *)

Lemma is_not_None_spec (v : pyval) : is_not_None v = true <-> v <> PNone.
Proof. destruct v; cbn; split; congruence. Qed.

Lemma supplied_None (v : pyval) : supplied v = None <-> v = PNone.
Proof. unfold supplied. destruct v; cbn; split; congruence. Qed.

Lemma truthy_dict_empty : truthy (PDict ∅) = false.
Proof. reflexivity. Qed.

Lemma truthy_dict_insert (k : hkey) (v : pyval) (d : pydict) :
  truthy (PDict (<[ k := v ]> d)) = true.
Proof.
  unfold truthy. destruct (size (<[ k := v ]> d)) eqn:Hsize; [| reflexivity].
  apply map_size_empty_iff in Hsize. by apply insert_non_empty in Hsize.
Qed.

(** C4: the request body of [execute] always holds [query] and [count];
    it holds [batchSize], [ttl], [bindVars] exactly when the corresponding
    argument is supplied (is not [None]), with the argument as value; it holds
    [options] exactly when one of [full_count], [max_plans],
    [optimizer_rules] is supplied, and these options hold [fullCount],
    [maxNumberOfPlans] and [optimizer] (as [{'rules': optimizer_rules}])
    exactly for the supplied ones; neither dictionary holds another key. *)
Theorem execute_request_body (connection : Type) (self_conn : connection)
    (query count batch_size ttl bind_vars full_count max_plans
       optimizer_rules : pyval) :
  exists options : pydict,
    options !! KStr "fullCount" = supplied full_count
    /\ options !! KStr "maxNumberOfPlans" = supplied max_plans
    /\ options !! KStr "optimizer"
       = (fun rules => PDict {[ KStr "rules" := rules ]})
           <$> supplied optimizer_rules
    /\ dom options =
         (if is_not_None full_count then {[ KStr "fullCount" ]} else ∅)
         ∪ (if is_not_None max_plans then {[ KStr "maxNumberOfPlans" ]} else ∅)
         ∪ (if is_not_None optimizer_rules then {[ KStr "optimizer" ]} else ∅)
    /\ let data :=
         body_of (request_of (AQL.execute self_conn query count batch_size ttl
                                bind_vars full_count max_plans optimizer_rules)) in
       data !! KStr "query" = Some query
       /\ data !! KStr "count" = Some count
       /\ data !! KStr "batchSize" = supplied batch_size
       /\ data !! KStr "ttl" = supplied ttl
       /\ data !! KStr "bindVars" = supplied bind_vars
       /\ data !! KStr "options"
          = (if is_not_None full_count || is_not_None max_plans
                || is_not_None optimizer_rules
             then Some (PDict options) else None)
       /\ dom data =
            {[ KStr "query"; KStr "count" ]}
            ∪ (if is_not_None batch_size then {[ KStr "batchSize" ]} else ∅)
            ∪ (if is_not_None ttl then {[ KStr "ttl" ]} else ∅)
            ∪ (if is_not_None bind_vars then {[ KStr "bindVars" ]} else ∅)
            ∪ (if is_not_None full_count || is_not_None max_plans
                  || is_not_None optimizer_rules
               then {[ KStr "options" ]} else ∅).
Proof.
  unfold request_of, body_of, AQL.execute, supplied. cbn.
  set (o1 := if is_not_None full_count
             then <[ KStr "fullCount" := full_count ]> (∅ : pydict) else ∅).
  set (o2 := if is_not_None max_plans
             then <[ KStr "maxNumberOfPlans" := max_plans ]> o1 else o1).
  set (o3 := if is_not_None optimizer_rules
             then <[ KStr "optimizer" :=
                       PDict {[ KStr "rules" := optimizer_rules ]} ]> o2
             else o2).
  exists o3. subst o1 o2 o3.
  destruct (is_not_None full_count), (is_not_None max_plans),
    (is_not_None optimizer_rules); cbn;
    rewrite ?truthy_dict_insert, ?truthy_dict_empty;
    destruct (is_not_None batch_size), (is_not_None ttl),
      (is_not_None bind_vars); cbn;
    repeat split; try (by simplify_map_eq);
    rewrite ?dom_insert_L, ?dom_singleton_L, ?dom_empty_L; set_solver.
Qed.

(** C5: the request body of the cache [configure] holds [mode] exactly when
    the [mode] argument is supplied and [maxResults] exactly when [limit] is,
    each with the argument as value, and no other key; [configure(limit=5)]
    sends [{'maxResults': 5}], without a [mode] key. *)
Theorem configure_request_body (mode limit : pyval) :
  (let data := body_of (request_of (AQLQueryCache.configure mode limit)) in
   data !! KStr "mode" = supplied mode
   /\ data !! KStr "maxResults" = supplied limit
   /\ dom data =
        (if is_not_None mode then {[ KStr "mode" ]} else ∅)
        ∪ (if is_not_None limit then {[ KStr "maxResults" ]} else ∅))
  /\ body_of (request_of (AQLQueryCache.configure PNone (PInt 5)))
     = {[ KStr "maxResults" := PInt 5 ]}
  /\ body_of (request_of (AQLQueryCache.configure PNone (PInt 5)))
       !! KStr "mode" = None.
Proof.
  split.
  - unfold request_of, body_of, AQLQueryCache.configure, supplied. cbn.
    destruct (is_not_None mode), (is_not_None limit);
      repeat split; try (by simplify_map_eq);
      rewrite ?dom_insert_L, ?dom_empty_L; set_solver.
  - split; vm_compute; reflexivity.
Qed.

(** ** functions *)

Lemma comprehension_describes (funcs : list pydict)
    (entries : list (hkey * pyval)) :
  Forall2 describes funcs entries ->
  forall acc : pydict,
    AQL.name_code_comprehension (PDict <$> funcs) acc
    = Ret (insert_all entries acc).
Proof.
  induction 1 as [| func entry funcs entries Hdesc _ IH]; intros acc.
  - reflexivity.
  - destruct Hdesc as (name & Hname & Hkey & Hcode). cbn.
    change (py_dict (PDict func)) with (Ret func). cbn.
    rewrite (getitem_present func "name" name Hname). cbn.
    rewrite (getitem_present func "code" entry.2 Hcode). cbn.
    rewrite Hkey. cbn. apply IH.
Qed.

Lemma insert_all_app (es1 es2 : list (hkey * pyval)) (acc : pydict) :
  insert_all (es1 ++ es2) acc = insert_all es2 (insert_all es1 acc).
Proof. unfold insert_all. apply foldl_app. Qed.

Lemma insert_all_other (entries : list (hkey * pyval)) (acc : pydict) (k : hkey) :
  k ∉ entries.*1 -> insert_all entries acc !! k = acc !! k.
Proof.
  revert acc. induction entries as [| [k' c'] entries IH]; intros acc Hk.
  - reflexivity.
  - cbn in Hk. apply not_elem_of_cons in Hk as [Hne Hk].
    change (insert_all ((k', c') :: entries) acc)
      with (insert_all entries (<[ k' := c' ]> acc)).
    rewrite (IH _ Hk). by rewrite lookup_insert_ne.
Qed.

Lemma insert_all_last (es1 es2 : list (hkey * pyval)) (acc : pydict)
    (k : hkey) (c : pyval) :
  k ∉ es2.*1 -> insert_all (es1 ++ (k, c) :: es2) acc !! k = Some c.
Proof.
  intros Hk. rewrite insert_all_app.
  change (insert_all ((k, c) :: es2) (insert_all es1 acc))
    with (insert_all es2 (<[ k := c ]> (insert_all es1 acc))).
  rewrite (insert_all_other es2 _ k Hk). apply lookup_insert_eq.
Qed.

Lemma functions_handler_falsy (res : response) :
  status_in (status_code res) HTTP_OK = true ->
  truthy (body res) = false ->
  handler_of AQL.functions res = Ret (PDict ∅).
Proof.
  intros Hok Hfalsy. handler_on Hok. rewrite Hfalsy.
  unfold py_iter. rewrite map_to_list_empty. reflexivity.
Qed.

Lemma functions_handler_list (status : Z) (items : list pyval) :
  status_in status HTTP_OK = true ->
  truthy (PList items) = true ->
  handler_of AQL.functions (Response status (PList items))
  = (result ← AQL.name_code_comprehension items ∅; Ret (PDict result)).
Proof. intros Hok Htrue. handler_on Hok. rewrite Htrue. reflexivity. Qed.

(** C10: on a success status, a body that is empty or absent (any body that
    is false: [None], an empty list, an empty mapping) makes the handler of
    [functions] return the empty mapping; for a list of function descriptions
    it returns the mapping filled with name -> code for each element in turn,
    so that a name carries the code of the last element that has it, and a
    name of no element is absent. *)
Theorem functions_mapping :
  (forall res : response,
     status_in (status_code res) HTTP_OK = true ->
     truthy (body res) = false ->
     handler_of AQL.functions res = Ret (PDict ∅))
  /\ (forall (status : Z) (funcs : list pydict) (entries : list (hkey * pyval)),
        status_in status HTTP_OK = true ->
        Forall2 describes funcs entries ->
        handler_of AQL.functions (Response status (PList (PDict <$> funcs)))
        = Ret (PDict (insert_all entries ∅)))
  /\ (forall (es1 es2 : list (hkey * pyval)) (k : hkey) (c : pyval),
        k ∉ es2.*1 -> insert_all (es1 ++ (k, c) :: es2) ∅ !! k = Some c)
  /\ (forall (entries : list (hkey * pyval)) (k : hkey),
        k ∉ entries.*1 -> insert_all entries ∅ !! k = None).
Proof.
  split; [exact functions_handler_falsy |]. split; [| split].
  - intros status funcs entries Hok Hdesc.
    destruct Hdesc as [| func entry funcs entries Hd Hrest].
    + by apply functions_handler_falsy.
    + rewrite functions_handler_list; [| exact Hok | reflexivity].
      rewrite (comprehension_describes (func :: funcs) (entry :: entries));
        [reflexivity | by constructor].
  - intros es1 es2 k c. apply insert_all_last.
  - intros entries k Hk. rewrite insert_all_other by exact Hk.
    apply lookup_empty.
Qed.

Lemma functions_mapping_witness :
  status_in 200 HTTP_OK = true
  /\ handler_of AQL.functions (Response 200 PNone) = Ret (PDict ∅)
  /\ handler_of AQL.functions (Response 200 (PList [])) = Ret (PDict ∅)
  /\ handler_of AQL.functions (Response 200 (PDict ∅)) = Ret (PDict ∅)
  /\ handler_of AQL.functions
       (Response 200
          (PList
             [PDict {[ KStr "name" := PStr "ns::f"; KStr "code" := PStr "old" ]};
              PDict {[ KStr "name" := PStr "ns::g"; KStr "code" := PStr "other" ]};
              PDict {[ KStr "name" := PStr "ns::f"; KStr "code" := PStr "new" ]}]))
     = Ret (PDict (insert_all [(KStr "ns::f", PStr "old");
                               (KStr "ns::g", PStr "other");
                               (KStr "ns::f", PStr "new")] ∅))
  /\ insert_all ([(KStr "ns::f", PStr "old"); (KStr "ns::g", PStr "other")]
                 ++ (KStr "ns::f", PStr "new") :: []) ∅ !! KStr "ns::f"
     = Some (PStr "new")
  /\ insert_all [(KStr "ns::f", PStr "old")] ∅ !! KStr "ns::g" = None.
Proof.
  destruct functions_mapping as (Hfalsy & Hlist & Hlast & Hother).
  split; [reflexivity |].
  split; [apply Hfalsy; reflexivity |].
  split; [apply Hfalsy; reflexivity |].
  split; [apply Hfalsy; reflexivity |].
  split; [| split].
  - apply (Hlist 200
             [ {[ KStr "name" := PStr "ns::f"; KStr "code" := PStr "old" ]};
               {[ KStr "name" := PStr "ns::g"; KStr "code" := PStr "other" ]};
               {[ KStr "name" := PStr "ns::f"; KStr "code" := PStr "new" ]} ]
             [(KStr "ns::f", PStr "old"); (KStr "ns::g", PStr "other");
              (KStr "ns::f", PStr "new")]);
      [reflexivity |].
    constructor; [| constructor; [| constructor; [| constructor]]].
    + exists (PStr "ns::f").
      split; [vm_compute; reflexivity |].
      split; [reflexivity | vm_compute; reflexivity].
    + exists (PStr "ns::g").
      split; [vm_compute; reflexivity |].
      split; [reflexivity | vm_compute; reflexivity].
    + exists (PStr "ns::f").
      split; [vm_compute; reflexivity |].
      split; [reflexivity | vm_compute; reflexivity].
  - apply Hlast. cbn. apply not_elem_of_nil.
  - apply Hother. cbn. intros Hin. apply list_elem_of_singleton in Hin.
    discriminate Hin.
Defined.

(** ** Further properties of the handlers *)

Lemma explain_handler_ok (query all_plans max_plans opt_rules : pyval)
    (res : response) :
  status_in (status_code res) HTTP_OK = true ->
  handler_of (AQL.explain query all_plans max_plans opt_rules) res
  = (has_plan ← py_contains "plan" (body res);
     py_getitem (body res) (if has_plan : bool then "plan" else "plans")).
Proof. intros Hok. handler_on Hok. reflexivity. Qed.

Lemma explain_handler_fail (query all_plans max_plans opt_rules : pyval)
    (res : response) :
  status_in (status_code res) HTTP_OK = false ->
  handler_of (AQL.explain query all_plans max_plans opt_rules) res
  = Raise (AQLQueryExplainError res).
Proof. intros Hok. handler_on Hok. reflexivity. Qed.

Lemma getitem_returns (v : pyval) (k : string) (x : pyval) :
  py_getitem v k = Ret x <-> exists d : pydict, v = PDict d /\ d !! KStr k = Some x.
Proof.
  split.
  - unfold py_getitem. destruct v; try discriminate.
    destruct (d !! KStr k) as [y |] eqn:Hk; [| discriminate].
    intros [= <-]. eauto.
  - intros (d & -> & Hk). by apply getitem_present.
Qed.

(** X1: the handler of [explain] returns a value exactly when the status is
    a success status and the body is a mapping that has a [plan] field (the
    value returned) or, failing that, a [plans] field (the value returned);
    what it returns is always stored in the body under one of the two. *)
Theorem explain_handler_returns (query all_plans max_plans opt_rules : pyval)
    (res : response) (v : pyval) :
  handler_of (AQL.explain query all_plans max_plans opt_rules) res = Ret v
  <-> status_in (status_code res) HTTP_OK = true
      /\ exists d : pydict,
           body res = PDict d
           /\ (d !! KStr "plan" = Some v
               \/ (d !! KStr "plan" = None /\ d !! KStr "plans" = Some v)).
Proof.
  destruct res as [status b].
  destruct (status_in status HTTP_OK) eqn:Hok.
  - rewrite explain_handler_ok by exact Hok. cbn [body status_code]. split.
    + intros Hret. split; [exact Hok |].
      destruct b; try discriminate Hret. exists d. split; [reflexivity |].
      destruct (d !! KStr "plan") as [plan |] eqn:Hplan.
      * rewrite (contains_present d "plan" plan Hplan) in Hret. cbn in Hret.
        rewrite (getitem_present d "plan" plan Hplan) in Hret.
        left. congruence.
      * rewrite (contains_absent d "plan" Hplan) in Hret. cbn in Hret.
        apply getitem_returns in Hret as (d' & [= <-] & Hplans).
        right. split; [reflexivity | exact Hplans].
    + intros (_ & d & -> & [Hplan | [Hplan Hplans]]).
      * rewrite (contains_present d "plan" v Hplan). cbn.
        by apply getitem_present.
      * rewrite (contains_absent d "plan" Hplan). cbn.
        by apply getitem_present.
  - rewrite explain_handler_fail by exact Hok. split; [discriminate |].
    intros [Hok' _]. cbn [status_code] in Hok'. congruence.
Qed.

Lemma explain_handler_returns_witness :
  handler_of (AQL.explain (PStr "RETURN 1") (PBool false) PNone PNone)
    (Response 200 (PDict {[ KStr "plans" := PList [PStr "first"] ]}))
  = Ret (PList [PStr "first"]).
Proof.
  apply (explain_handler_returns (PStr "RETURN 1") (PBool false) PNone PNone
           (Response 200 (PDict {[ KStr "plans" := PList [PStr "first"] ]}))).
  split; [reflexivity |].
  exists {[ KStr "plans" := PList [PStr "first"] ]}.
  split; [reflexivity |]. right.
  split; vm_compute; reflexivity.
Defined.

(** ** validate, continued *)

Lemma validate_handler_ok (query : pyval) (res : response) :
  status_in (status_code res) HTTP_OK = true ->
  handler_of (AQL.validate query) res
  = (body1 ← py_pop (body res) "code"; body2 ← py_pop body1 "error"; Ret body2).
Proof. intros Hok. handler_on Hok. reflexivity. Qed.

Lemma validate_handler_fail (query : pyval) (res : response) :
  status_in (status_code res) HTTP_OK = false ->
  handler_of (AQL.validate query) res = Raise (AQLQueryValidateError res).
Proof. intros Hok. handler_on Hok. reflexivity. Qed.

(** X2: the handler of [validate] returns exactly when the status is a
    success status and the body is a mapping, and then returns that mapping
    without [code] and [error]; a body of any other kind makes it raise. *)
Theorem validate_handler_returns (query : pyval) (res : response) (v : pyval) :
  handler_of (AQL.validate query) res = Ret v
  <-> status_in (status_code res) HTTP_OK = true
      /\ exists d : pydict,
           body res = PDict d
           /\ v = PDict (delete (KStr "error") (delete (KStr "code") d)).
Proof.
  destruct res as [status b].
  destruct (status_in status HTTP_OK) eqn:Hok.
  - rewrite validate_handler_ok by exact Hok. cbn [body status_code]. split.
    + intros Hret. split; [exact Hok |].
      destruct b; try discriminate Hret. exists d. split; [reflexivity |].
      change (Ret (PDict (delete (KStr "error") (delete (KStr "code") d)))
              = Ret v) in Hret.
      congruence.
    + intros (_ & d & -> & ->). reflexivity.
  - rewrite validate_handler_fail by exact Hok. split; [discriminate |].
    intros [Hok' _]. cbn [status_code] in Hok'. congruence.
Qed.

Lemma validate_handler_returns_witness :
  handler_of (AQL.validate (PStr "RETURN 1"))
    (Response 200 (PDict {[ KStr "code" := PInt 200; KStr "parsed" := PBool true ]}))
  = Ret (PDict (delete (KStr "error")
                  (delete (KStr "code")
                     {[ KStr "code" := PInt 200; KStr "parsed" := PBool true ]}))).
Proof.
  apply (validate_handler_returns (PStr "RETURN 1")
           (Response 200
              (PDict {[ KStr "code" := PInt 200; KStr "parsed" := PBool true ]}))).
  split; [reflexivity |].
  exists {[ KStr "code" := PInt 200; KStr "parsed" := PBool true ]}.
  split; reflexivity.
Defined.

(** X3: validating is idempotent on the decoded value: the value that the
    handler of [validate] returned, handed back to the handler of any
    [validate] call under any success status, is returned unchanged. *)
Theorem validate_handler_idempotent (query query' : pyval)
    (res : response) (status' : Z) (v : pyval) :
  handler_of (AQL.validate query) res = Ret v ->
  status_in status' HTTP_OK = true ->
  handler_of (AQL.validate query') (Response status' v) = Ret v.
Proof.
  intros Hret Hok'.
  apply validate_handler_returns in Hret as (_ & d & _ & ->).
  apply validate_handler_returns. split; [exact Hok' |].
  eexists. split; [reflexivity |]. f_equal.
  apply map_eq. intros k. rewrite !lookup_delete.
  repeat case_decide; reflexivity.
Qed.

Lemma validate_handler_idempotent_witness :
  handler_of (AQL.validate (PStr "RETURN 2"))
    (Response 201 (PDict {[ KStr "parsed" := PBool true ]}))
  = Ret (PDict {[ KStr "parsed" := PBool true ]}).
Proof.
  apply (validate_handler_idempotent (PStr "RETURN 1") (PStr "RETURN 2")
           (Response 200
              (PDict {[ KStr "code" := PInt 200; KStr "parsed" := PBool true ]}))
           201).
  - vm_compute. reflexivity.
  - reflexivity.
Defined.

(** ** What escapes from the handlers *)

Lemma raises_only_guard {A : Type} (codes : list Z) (failure : response -> exn)
    (rest : response -> outcome A) :
  (forall res e, rest res = Raise e -> is_builtin e = true) ->
  raises_only (fun res => if negb (status_in (status_code res) codes)
                          then Raise (failure res) else rest res)
              failure.
Proof.
  intros Hrest res e. destruct (status_in (status_code res) codes); cbn.
  - intros H. right. eapply Hrest, H.
  - intros [= <-]. by left.
Qed.

Lemma delete_function_raises_only (name : string) (group ignore_missing : pyval) :
  raises_only (handler_of (AQL.delete_function name group ignore_missing))
    AQLFunctionDeleteError.
Proof.
  intros res e. unfold handler_of. cbn.
  destruct (negb (status_in (status_code res) HTTP_OK)
            && negb (Z.eqb (status_code res) 404 && truthy ignore_missing)).
  - intros [= <-]. by left.
  - intros H. right. eapply (not_error_raises_builtin res), H.
Qed.

(** X4: no handler lets another operation's error escape: whatever a handler
    raises is either its own classified error, built from the very response
    it was given, or a built-in exception ([KeyError], [TypeError],
    [ValueError], [AttributeError]) of the decoding. *)
Theorem handlers_raise_own_error_only :
  (forall query all_plans max_plans opt_rules : pyval,
     raises_only (handler_of (AQL.explain query all_plans max_plans opt_rules))
       AQLQueryExplainError)
  /\ (forall query : pyval,
        raises_only (handler_of (AQL.validate query)) AQLQueryValidateError)
  /\ (forall (connection : Type) (self_conn : connection)
        (query count batch_size ttl bind_vars full_count max_plans
           optimizer_rules : pyval),
        raises_only
          (handler_of (AQL.execute self_conn query count batch_size ttl
                         bind_vars full_count max_plans optimizer_rules))
          AQLQueryExecuteError)
  /\ raises_only (handler_of AQL.functions) AQLFunctionsListError
  /\ (forall name code : pyval,
        raises_only (handler_of (AQL.create_function name code))
          AQLFunctionCreateError)
  /\ (forall (name : string) (group ignore_missing : pyval),
        raises_only (handler_of (AQL.delete_function name group ignore_missing))
          AQLFunctionDeleteError)
  /\ raises_only (handler_of AQLQueryCache.properties) AQLCacheGetPropertiesError
  /\ (forall mode limit : pyval,
        raises_only (handler_of (AQLQueryCache.configure mode limit))
          AQLCacheConfigureError)
  /\ raises_only (handler_of AQLQueryCache.clear) AQLCacheClearError.
Proof.
  split.
  { intros query all_plans max_plans opt_rules.
    apply (raises_only_guard HTTP_OK AQLQueryExplainError
             (fun res => has_plan ← py_contains "plan" (body res);
                         py_getitem (body res)
                           (if has_plan : bool then "plan" else "plans"))).
    intros res e. apply bind_raises_builtin; [apply contains_raises_builtin |].
    intros has_plan e'. apply getitem_raises_builtin. }
  split.
  { intros query.
    apply (raises_only_guard HTTP_OK AQLQueryValidateError
             (fun res => body1 ← py_pop (body res) "code";
                         body2 ← py_pop body1 "error";
                         Ret body2)).
    intros res e. apply bind_raises_builtin; [apply pop_raises_builtin |].
    intros body1 e1. apply bind_raises_builtin; [apply pop_raises_builtin |].
    discriminate. }
  split.
  { intros connection self_conn query count batch_size ttl bind_vars
      full_count max_plans optimizer_rules.
    apply (raises_only_guard HTTP_OK AQLQueryExecuteError
             (fun res => Ret (mkCursor self_conn (body res)))).
    discriminate. }
  split.
  { apply (raises_only_guard HTTP_OK AQLFunctionsListError
             (fun res =>
                items ← py_iter (if truthy (body res) then body res else PDict ∅);
                result ← AQL.name_code_comprehension items ∅;
                Ret (PDict result))).
    intros res e. apply bind_raises_builtin; [apply iter_raises_builtin |].
    intros items e1.
    apply bind_raises_builtin; [apply comprehension_raises_builtin |].
    discriminate. }
  split.
  { intros name code.
    apply (raises_only_guard [200; 201] AQLFunctionCreateError not_error).
    apply not_error_raises_builtin. }
  split; [apply delete_function_raises_only |].
  split.
  { apply (raises_only_guard HTTP_OK AQLCacheGetPropertiesError
             (fun res =>
                mode ← py_getitem (body res) "mode";
                limit ← py_getitem (body res) "maxResults";
                Ret (PDict {[ KStr "mode" := mode; KStr "limit" := limit ]}))).
    intros res e. apply bind_raises_builtin; [apply getitem_raises_builtin |].
    intros mode e1. apply bind_raises_builtin; [apply getitem_raises_builtin |].
    discriminate. }
  split.
  { intros mode limit.
    apply (raises_only_guard HTTP_OK AQLCacheConfigureError
             (fun res =>
                mode ← py_getitem (body res) "mode";
                limit ← py_getitem (body res) "maxResults";
                Ret (PDict {[ KStr "mode" := mode; KStr "limit" := limit ]}))).
    intros res e. apply bind_raises_builtin; [apply getitem_raises_builtin |].
    intros mode' e1. apply bind_raises_builtin; [apply getitem_raises_builtin |].
    discriminate. }
  apply (raises_only_guard HTTP_OK AQLCacheClearError not_error).
  apply not_error_raises_builtin.
Qed.

Lemma handlers_raise_own_error_only_witness :
  handler_of AQL.functions (Response 200 (PList [PInt 5])) = Raise TypeError
  /\ (TypeError = AQLFunctionsListError (Response 200 (PList [PInt 5]))
      \/ is_builtin TypeError = true).
Proof.
  assert (Hrun : handler_of AQL.functions (Response 200 (PList [PInt 5]))
                 = Raise TypeError) by (vm_compute; reflexivity).
  split; [exact Hrun |].
  destruct handlers_raise_own_error_only as (_ & _ & _ & Hfunctions & _).
  exact (Hfunctions (Response 200 (PList [PInt 5])) TypeError Hrun).
Defined.

(** ** execute, continued *)



(** ** clear and delete_function, continued *)

Lemma not_error_returns (res : response) (v : pyval) :
  not_error res = Ret v
  <-> exists (d : pydict) (error : pyval),
        body res = PDict d
        /\ d !! KStr "error" = Some error
        /\ v = PBool (negb (truthy error)).
Proof.
  unfold not_error. split.
  - destruct (py_getitem (body res) "error") as [error | e] eqn:Hget; cbn;
      [| discriminate].
    intros [= <-]. apply getitem_returns in Hget as (d & Hbody & Herr).
    exists d, error. by repeat split.
  - intros (d & error & -> & Herr & ->).
    rewrite (getitem_present d "error" error Herr). reflexivity.
Qed.

(** X6: the handler of the cache [clear] returns exactly when the status is
    a success status and the body is a mapping with an [error] field; it then
    returns a Boolean, [True] exactly when the field is false in Python's
    sense ([False], [None], [0], an empty string or container). *)
Theorem clear_handler_returns (res : response) (v : pyval) :
  handler_of AQLQueryCache.clear res = Ret v
  <-> status_in (status_code res) HTTP_OK = true
      /\ exists (d : pydict) (error : pyval),
           body res = PDict d
           /\ d !! KStr "error" = Some error
           /\ v = PBool (negb (truthy error)).
Proof.
  rewrite <- not_error_returns. unfold handler_of. cbn.
  destruct (status_in (status_code res) HTTP_OK); cbn.
  - split; [intros H; by split | intros [_ H]; exact H].
  - split; [discriminate | intros [? _]; discriminate].
Qed.

Lemma clear_handler_returns_witness :
  handler_of AQLQueryCache.clear
    (Response 200 (PDict {[ KStr "error" := PInt 0; KStr "code" := PInt 200 ]}))
  = Ret (PBool (negb (truthy (PInt 0)))).
Proof.
  apply (clear_handler_returns
           (Response 200
              (PDict {[ KStr "error" := PInt 0; KStr "code" := PInt 200 ]}))).
  split; [reflexivity |].
  exists {[ KStr "error" := PInt 0; KStr "code" := PInt 200 ]}, (PInt 0).
  split; [reflexivity |]. split; [vm_compute; reflexivity | reflexivity].
Defined.

(** X7: the handler of [delete_function] depends on the arguments of the
    call through the truth value of [ignore_missing] only, and through that
    on a 404 response only: two calls answer a response alike whenever its
    status is not 404 or their [ignore_missing] have the same truth value,
    whatever their [name] and [group]. *)
Theorem delete_function_ignore_missing_only_404 (name name' : string)
    (group group' ignore_missing ignore_missing' : pyval) (res : response) :
  status_code res <> 404 \/ truthy ignore_missing = truthy ignore_missing' ->
  handler_of (AQL.delete_function name group ignore_missing) res
  = handler_of (AQL.delete_function name' group' ignore_missing') res.
Proof.
  intros Hframe. unfold handler_of. cbn.
  destruct Hframe as [H404 | Hsame].
  - apply Z.eqb_neq in H404. rewrite H404. reflexivity.
  - rewrite Hsame. reflexivity.
Qed.

Lemma delete_function_ignore_missing_only_404_witness :
  handler_of (AQL.delete_function "ns::f" PNone (PBool true))
    (Response 500 PNone)
  = handler_of (AQL.delete_function "ns::g" (PBool true) (PBool false))
      (Response 500 PNone).
Proof.
  apply (delete_function_ignore_missing_only_404 "ns::f" "ns::g" PNone
           (PBool true) (PBool true) (PBool false) (Response 500 PNone)).
  left. cbn. lia.
Defined.

(** ** functions, continued *)

Lemma dom_insert_all (entries : list (hkey * pyval)) (acc : pydict) :
  dom (insert_all entries acc) = list_to_set entries.*1 ∪ dom acc.
Proof.
  revert acc. induction entries as [| [k c] entries IH]; intros acc.
  - cbn. by rewrite (left_id_L ∅ (∪)).
  - change (insert_all ((k, c) :: entries) acc)
      with (insert_all entries (<[ k := c ]> acc)).
    rewrite IH, dom_insert_L. cbn.
    rewrite (comm_L (∪) {[ k ]} (list_to_set entries.*1)).
    by rewrite (assoc_L (∪)).
Qed.

Lemma size_insert_all (entries : list (hkey * pyval)) (acc : pydict) :
  (size (insert_all entries acc) <= List.length entries + size acc)%nat.
Proof.
  revert acc. induction entries as [| [k c] entries IH]; intros acc.
  - cbn. lia.
  - change (insert_all ((k, c) :: entries) acc)
      with (insert_all entries (<[ k := c ]> acc)).
    specialize (IH (<[ k := c ]> acc)). rewrite map_size_insert in IH.
    cbn [List.length]. destruct (acc !! k); cbn in IH; lia.
Qed.

Lemma insert_all_lookup_nodup (entries : list (hkey * pyval)) (k : hkey)
    (c : pyval) :
  NoDup entries.*1 ->
  ((k, c) ∈ entries <-> insert_all entries ∅ !! k = Some c).
Proof.
  intros Hnodup.
  assert (Hin : forall c', (k, c') ∈ entries ->
                           insert_all entries ∅ !! k = Some c').
  { intros c' Hc'. apply list_elem_of_split in Hc' as (es1 & es2 & ->).
    apply insert_all_last. rewrite fmap_app in Hnodup.
    apply NoDup_app in Hnodup as (_ & _ & Hnodup). cbn in Hnodup.
    by apply NoDup_cons in Hnodup as [Hk _]. }
  split; [apply Hin |]. intros Hlookup.
  assert (Hdom : k ∈ dom (insert_all entries ∅))
    by (apply elem_of_dom; eauto).
  rewrite dom_insert_all, dom_empty_L, elem_of_union in Hdom.
  destruct Hdom as [Hdom | Hdom]; [| by apply not_elem_of_empty in Hdom].
  apply elem_of_list_to_set, list_elem_of_fmap in Hdom as ([k' c'] & Hk & Hc').
  cbn in Hk. subst k'. rewrite (Hin c' Hc') in Hlookup.
  by injection Hlookup as ->.
Qed.

Lemma functions_handler_described (status : Z) (funcs : list pydict)
    (entries : list (hkey * pyval)) :
  status_in status HTTP_OK = true ->
  Forall2 describes funcs entries ->
  handler_of AQL.functions (Response status (PList (PDict <$> funcs)))
  = Ret (PDict (insert_all entries ∅)).
Proof.
  intros Hok Hdesc. destruct Hdesc as [| func entry funcs entries Hd Hrest].
  - by apply functions_handler_falsy.
  - rewrite functions_handler_list; [| exact Hok | reflexivity].
    rewrite (comprehension_describes (func :: funcs) (entry :: entries));
      [reflexivity | by constructor].
Qed.

(** X8: the mapping that the handler of [functions] returns for a list of
    function descriptions has exactly the names of the list as keys and never
    more entries than the list has elements; when the names are pairwise
    distinct it has one entry per element, and its entries are exactly the
    (name, code) pairs of the list. *)
Theorem functions_result_keys (status : Z) (funcs : list pydict)
    (entries : list (hkey * pyval)) :
  status_in status HTTP_OK = true ->
  Forall2 describes funcs entries ->
  exists m : pydict,
    handler_of AQL.functions (Response status (PList (PDict <$> funcs)))
    = Ret (PDict m)
    /\ dom m = list_to_set entries.*1
    /\ (size m <= List.length funcs)%nat
    /\ (NoDup entries.*1 ->
        size m = List.length funcs
        /\ forall (k : hkey) (c : pyval), (k, c) ∈ entries <-> m !! k = Some c).
Proof.
  intros Hok Hdesc. exists (insert_all entries ∅).
  split; [by apply functions_handler_described |].
  assert (Hdom : dom (insert_all entries ∅) = list_to_set entries.*1).
  { rewrite dom_insert_all, dom_empty_L. by rewrite (right_id_L ∅ (∪)). }
  assert (Hlen : List.length funcs = List.length entries) by (eapply Forall2_length, Hdesc).
  split; [exact Hdom |]. split.
  - pose proof (size_insert_all entries ∅) as Hsize.
    rewrite map_size_empty in Hsize. lia.
  - intros Hnodup. split.
    + rewrite <- size_dom, Hdom, size_list_to_set by exact Hnodup.
      rewrite length_fmap. congruence.
    + intros k c. by apply insert_all_lookup_nodup.
Qed.

Lemma functions_result_keys_witness :
  exists m : pydict,
    handler_of AQL.functions
      (Response 200
         (PList [PDict {[ KStr "name" := PStr "ns::f"; KStr "code" := PStr "a" ]};
                 PDict {[ KStr "name" := PStr "ns::g"; KStr "code" := PStr "b" ]}]))
    = Ret (PDict m)
    /\ dom m = list_to_set [KStr "ns::f"; KStr "ns::g"]
    /\ size m = 2%nat.
Proof.
  assert (Hdesc :
    Forall2 describes
      [ ({[ KStr "name" := PStr "ns::f"; KStr "code" := PStr "a" ]} : pydict);
        {[ KStr "name" := PStr "ns::g"; KStr "code" := PStr "b" ]} ]
      [ (KStr "ns::f", PStr "a"); (KStr "ns::g", PStr "b") ]).
  { constructor; [| constructor; [| constructor]].
    - exists (PStr "ns::f").
      split; [vm_compute; reflexivity |].
      split; [reflexivity | vm_compute; reflexivity].
    - exists (PStr "ns::g").
      split; [vm_compute; reflexivity |].
      split; [reflexivity | vm_compute; reflexivity]. }
  destruct (functions_result_keys 200 _ _ eq_refl Hdesc)
    as (m & Hret & Hdom & _ & Hnodup).
  exists m. split; [exact Hret |]. split; [exact Hdom |].
  apply Hnodup. cbn.
  apply NoDup_cons. split.
  - intros Hin. apply list_elem_of_singleton in Hin. discriminate Hin.
  - apply NoDup_cons. split; [apply not_elem_of_nil | apply NoDup_nil_2].
Defined.

Lemma comprehension_converted (items : list pyval) (dicts : list pydict) :
  Forall2 (fun item d => py_dict item = Ret d) items dicts ->
  forall acc : pydict,
    AQL.name_code_comprehension items acc
    = AQL.name_code_comprehension (PDict <$> dicts) acc.
Proof.
  induction 1 as [| item d items dicts Hdict _ IH]; intros acc.
  - reflexivity.
  - cbn. rewrite Hdict. change (py_dict (PDict d)) with (Ret d). cbn.
    destruct (py_getitem (PDict d) "name") as [name |]; cbn; [| reflexivity].
    destruct (py_getitem (PDict d) "code") as [code |]; cbn; [| reflexivity].
    destruct (hashable name) as [key |]; cbn; [| reflexivity].
    apply IH.
Qed.

(** X9: the handler of [functions] sees each element of the list through
    [dict] only: a list whose elements are given in any form that [dict]
    accepts (a mapping, or a sequence of key/value pairs) is answered exactly
    like the list of the mappings that [dict] makes of them. *)
Theorem functions_elements_through_dict (status : Z) (items : list pyval)
    (dicts : list pydict) :
  status_in status HTTP_OK = true ->
  Forall2 (fun item d => py_dict item = Ret d) items dicts ->
  handler_of AQL.functions (Response status (PList items))
  = handler_of AQL.functions (Response status (PList (PDict <$> dicts))).
Proof.
  intros Hok Hconv. destruct Hconv as [| item d items dicts Hd Hrest].
  - reflexivity.
  - rewrite !functions_handler_list; try exact Hok; try reflexivity.
    rewrite (comprehension_converted (item :: items) (d :: dicts));
      [reflexivity | by constructor].
Qed.

Lemma functions_elements_through_dict_witness :
  handler_of AQL.functions
    (Response 200
       (PList [PList [PList [PStr "name"; PStr "ns::f"];
                      PList [PStr "code"; PStr "a"]]]))
  = handler_of AQL.functions
      (Response 200
         (PList (PDict <$> [ <[ KStr "code" := PStr "a" ]>
                               (<[ KStr "name" := PStr "ns::f" ]> ∅) ]))).
Proof.
  apply (functions_elements_through_dict 200); [reflexivity |].
  constructor; [vm_compute; reflexivity | constructor].
Defined.

Lemma comprehension_app (items1 items2 : list pyval) (acc : pydict) :
  AQL.name_code_comprehension (items1 ++ items2) acc
  = (acc' ← AQL.name_code_comprehension items1 acc;
     AQL.name_code_comprehension items2 acc').
Proof.
  revert acc. induction items1 as [| item items1 IH]; intros acc.
  - reflexivity.
  - cbn. destruct (py_dict item) as [func |]; cbn; [| reflexivity].
    destruct (py_getitem (PDict func) "name") as [name |]; cbn; [| reflexivity].
    destruct (py_getitem (PDict func) "code") as [code |]; cbn; [| reflexivity].
    destruct (hashable name) as [key |]; cbn; [| reflexivity].
    apply IH.
Qed.

(** X10: the handler of [functions] returns no partial result: when the
    elements before some element are function descriptions and that element
    is a mapping without a [name] or without a [code], the handler raises
    [KeyError], whatever follows in the list. *)
Theorem functions_incomplete_element (status : Z) (funcs : list pydict)
    (entries : list (hkey * pyval)) (bad : pydict) (rest : list pyval) :
  status_in status HTTP_OK = true ->
  Forall2 describes funcs entries ->
  bad !! KStr "name" = None \/ bad !! KStr "code" = None ->
  handler_of AQL.functions
    (Response status (PList ((PDict <$> funcs) ++ PDict bad :: rest)))
  = Raise KeyError.
Proof.
  intros Hok Hdesc Hbad.
  rewrite functions_handler_list; [| exact Hok |].
  - rewrite comprehension_app, (comprehension_describes funcs entries Hdesc).
    cbn. change (py_dict (PDict bad)) with (Ret bad). cbn.
    destruct (bad !! KStr "name") as [name |] eqn:Hname.
    + destruct Hbad as [? | Hcode]; [discriminate |].
      rewrite (getitem_present bad "name" name Hname). cbn.
      rewrite (getitem_absent bad "code" Hcode). reflexivity.
    + rewrite (getitem_absent bad "name" Hname). reflexivity.
  - unfold truthy. rewrite length_app. cbn [List.length].
    by rewrite Nat.add_succ_r.
Qed.

Lemma functions_incomplete_element_witness :
  handler_of AQL.functions
    (Response 200
       (PList ((PDict <$> [ ({[ KStr "name" := PStr "ns::f";
                                KStr "code" := PStr "a" ]} : pydict) ])
               ++ PDict {[ KStr "name" := PStr "ns::g" ]} :: [PInt 5])))
  = Raise KeyError.
Proof.
  apply (functions_incomplete_element 200
           [ {[ KStr "name" := PStr "ns::f"; KStr "code" := PStr "a" ]} ]
           [ (KStr "ns::f", PStr "a") ]).
  - reflexivity.
  - constructor; [| constructor].
    exists (PStr "ns::f").
    split; [vm_compute; reflexivity |].
    split; [reflexivity | vm_compute; reflexivity].
  - right. vm_compute. reflexivity.
Defined.

Lemma functions_handler_ok (res : response) :
  status_in (status_code res) HTTP_OK = true ->
  handler_of AQL.functions res
  = (items ← py_iter (if truthy (body res) then body res else PDict ∅);
     result ← AQL.name_code_comprehension items ∅;
     Ret (PDict result)).
Proof. intros Hok. handler_on Hok. reflexivity. Qed.

Lemma dict_of_nonempty_string (c : Ascii.ascii) (s : string) :
  py_dict (PStr (String c s)) = Raise ValueError.
Proof. reflexivity. Qed.

Lemma comprehension_word (c : Ascii.ascii) (s : string) (rest : list pyval)
    (acc : pydict) :
  AQL.name_code_comprehension (PStr (String c s) :: rest) acc = Raise ValueError.
Proof. cbn. rewrite dict_of_nonempty_string. reflexivity. Qed.

Lemma comprehension_key (k : hkey) (rest : list pyval) (acc : pydict) :
  exists e : exn,
    AQL.name_code_comprehension (key_val k :: rest) acc = Raise e.
Proof.
  destruct k as [| z | [| c s]]; cbn.
  - by exists TypeError.
  - by exists TypeError.
  - change (py_dict (PStr "")) with (Ret (∅ : pydict)). cbn.
    rewrite (getitem_absent ∅ "name") by apply lookup_empty. by exists KeyError.
  - rewrite dict_of_nonempty_string. by exists ValueError.
Qed.

(** X11: the handler of [functions] returns only for a body that is false
    ([None], an empty container, ...) or a list: every other body (a
    non-empty mapping, such as one that wraps the list under a [result] key,
    a non-empty string, a number, [True]) makes it raise. *)
Theorem functions_returns_only_lists (res : response) (v : pyval) :
  handler_of AQL.functions res = Ret v ->
  truthy (body res) = false \/ exists items : list pyval, body res = PList items.
Proof.
  destruct res as [status b].
  destruct (status_in status HTTP_OK) eqn:Hok.
  - rewrite functions_handler_ok by exact Hok. cbn [body].
    destruct (truthy b) eqn:Htruthy; [| by left]. intros Hret. right.
    destruct b as [| flag | z | s | items | d];
      try discriminate Hret; try discriminate Htruthy.
    + destruct s as [| c s]; [discriminate Htruthy |].
      change (py_iter (PStr (String c s)))
        with (Ret (PStr (String c "")
                   :: ((fun c => PStr (String c "")) <$> list_ascii_of_string s)))
        in Hret.
      cbn [mbind outcome_bind] in Hret. rewrite comprehension_word in Hret.
      discriminate Hret.
    + by exists items.
    + unfold py_iter in Hret.
      destruct (map_to_list d) as [| [k x] kvs] eqn:Hlist.
      * apply map_to_list_empty_iff in Hlist. subst d. discriminate Htruthy.
      * rewrite !fmap_cons in Hret. cbn [mbind outcome_bind fst] in Hret.
        destruct (comprehension_key k (key_val <$> kvs.*1) ∅) as [e He].
        rewrite He in Hret. discriminate Hret.
  - unfold handler_of. cbn. rewrite Hok. discriminate.
Qed.

Lemma functions_returns_only_lists_witness :
  truthy (body (Response 200 (PList [PDict {[ KStr "name" := PStr "f";
                                             KStr "code" := PStr "c" ]}])))
  = false
  \/ exists items : list pyval,
       body (Response 200 (PList [PDict {[ KStr "name" := PStr "f";
                                           KStr "code" := PStr "c" ]}]))
       = PList items.
Proof.
  apply (functions_returns_only_lists
           (Response 200 (PList [PDict {[ KStr "name" := PStr "f";
                                          KStr "code" := PStr "c" ]}]))
           (PDict {[ KStr "f" := PStr "c" ]})).
  vm_compute. reflexivity.
Defined.

(** ** Builders and handlers together *)

(** X12: [create_function] and [functions] agree on the keys of a function
    description: when a success response lists, in order, the bodies that
    [create_function] sent for some names and codes, the handler of
    [functions] returns the mapping of these names to these codes (a later
    creation of a name replacing an earlier one). *)
Theorem create_function_bodies_listed (status : Z)
    (created : list (string * pyval)) :
  status_in status HTTP_OK = true ->
  handler_of AQL.functions
    (Response status
       (PList ((fun nc => PDict (body_of (request_of
                                            (AQL.create_function (PStr nc.1) nc.2))))
               <$> created)))
  = Ret (PDict (insert_all ((fun nc => (KStr nc.1, nc.2)) <$> created) ∅)).
Proof.
  intros Hok.
  rewrite <- (functions_handler_described status
                ((fun nc => body_of (request_of
                                       (AQL.create_function (PStr nc.1) nc.2)))
                 <$> created)
                ((fun nc => (KStr nc.1, nc.2)) <$> created) Hok).
  - by rewrite <- list_fmap_compose.
  - apply Forall2_fmap, Forall_Forall2_diag, Forall_forall.
    intros [name code] _. exists (PStr name).
    unfold request_of, body_of, AQL.create_function. cbn.
    split; [by simplify_map_eq |]. split; [reflexivity | by simplify_map_eq].
Qed.

Lemma create_function_bodies_listed_witness :
  handler_of AQL.functions
    (Response 200
       (PList ((fun nc => PDict (body_of (request_of
                                            (AQL.create_function (PStr nc.1) nc.2))))
               <$> [("ns::f", PStr "function(){}")])))
  = Ret (PDict (insert_all ((fun nc => (KStr nc.1, nc.2))
                            <$> [("ns::f", PStr "function(){}")]) ∅)).
Proof.
  apply (create_function_bodies_listed 200 [("ns::f", PStr "function(){}")]).
  reflexivity.
Defined.



Lemma explain_options_of (query all_plans max_plans opt_rules : pyval) :
  options_of (request_of (AQL.explain query all_plans max_plans opt_rules))
  = (let options : pydict := {[ KStr "allPlans" := all_plans ]} in
     let options :=
       if is_not_None max_plans
       then <[ KStr "maxNumberOfPlans" := max_plans ]> options else options in
     if is_not_None opt_rules
     then <[ KStr "optimizer" := PDict {[ KStr "rules" := opt_rules ]} ]> options
     else options).
Proof.
  unfold options_of, request_of, body_of, AQL.explain. cbn.
  rewrite lookup_insert_ne by discriminate. by rewrite lookup_singleton_eq.
Qed.

Lemma execute_options_of (connection : Type) (self_conn : connection)
    (query count batch_size ttl bind_vars full_count max_plans
       optimizer_rules : pyval) :
  options_of (request_of (AQL.execute self_conn query count batch_size ttl
                            bind_vars full_count max_plans optimizer_rules))
  = (let options : pydict :=
       if is_not_None full_count
       then <[ KStr "fullCount" := full_count ]> ∅ else ∅ in
     let options :=
       if is_not_None max_plans
       then <[ KStr "maxNumberOfPlans" := max_plans ]> options else options in
     if is_not_None optimizer_rules
     then <[ KStr "optimizer" := PDict {[ KStr "rules" := optimizer_rules ]} ]>
            options
     else options).
Proof.
  unfold options_of, request_of, body_of, AQL.execute. cbn.
  destruct (is_not_None full_count), (is_not_None max_plans),
    (is_not_None optimizer_rules); cbn;
    rewrite ?truthy_dict_insert, ?truthy_dict_empty;
    destruct (is_not_None batch_size), (is_not_None ttl),
      (is_not_None bind_vars); cbn;
    by simplify_map_eq.
Qed.

(** X14: [explain] and [execute] serialise the optimizer settings alike: for
    the same [max_plans] and the same rules, the options of an [explain]
    request without [allPlans] are the options of an [execute] request
    without [fullCount] (none at all when [execute] sends no options). *)
Theorem explain_execute_options_agree (connection : Type)
    (self_conn : connection)
    (query all_plans count batch_size ttl bind_vars full_count max_plans
       rules : pyval) :
  delete (KStr "allPlans")
    (options_of (request_of (AQL.explain query all_plans max_plans rules)))
  = delete (KStr "fullCount")
      (options_of (request_of (AQL.execute self_conn query count batch_size ttl
                                 bind_vars full_count max_plans rules))).
Proof.
  rewrite explain_options_of, execute_options_of. cbn.
  apply map_eq. intros k.
  destruct (is_not_None full_count), (is_not_None max_plans),
    (is_not_None rules);
    repeat (rewrite lookup_delete || rewrite lookup_insert
            || rewrite lookup_singleton || rewrite lookup_empty);
    repeat case_decide; congruence.
Qed.

(** ** Cache properties, continued *)

Lemma configure_handler_ok (mode limit : pyval) (res : response) :
  status_in (status_code res) HTTP_OK = true ->
  handler_of (AQLQueryCache.configure mode limit) res
  = (mode' ← py_getitem (body res) "mode";
     limit' ← py_getitem (body res) "maxResults";
     Ret (PDict {[ KStr "mode" := mode'; KStr "limit" := limit' ]})).
Proof. intros Hok. handler_on Hok. reflexivity. Qed.

(** X15: the cache [configure] encodes [limit] as [maxResults] and its
    handler decodes [maxResults] as [limit]: on a success response that
    echoes the body of a call that supplied both arguments, the handler
    returns the arguments of the call; the echo of a partial update, which
    lacks a key, makes it raise [KeyError]. *)
Theorem configure_echo (status : Z) (mode limit : pyval) :
  status_in status HTTP_OK = true ->
  (mode <> PNone -> limit <> PNone ->
   handler_of (AQLQueryCache.configure mode limit)
     (Response status
        (PDict (body_of (request_of (AQLQueryCache.configure mode limit)))))
   = Ret (PDict {[ KStr "mode" := mode; KStr "limit" := limit ]}))
  /\ (mode = PNone \/ limit = PNone ->
      handler_of (AQLQueryCache.configure mode limit)
        (Response status
           (PDict (body_of (request_of (AQLQueryCache.configure mode limit)))))
      = Raise KeyError).
Proof.
  intros Hok. rewrite configure_handler_ok by exact Hok. cbn [body]. split.
  - intros Hmode Hlimit. apply is_not_None_spec in Hmode, Hlimit.
    apply (cache_decode_present status);
      unfold request_of, body_of, AQLQueryCache.configure; cbn;
      rewrite Hmode, Hlimit; by simplify_map_eq.
  - intros Hnone. apply (cache_decode_absent status).
    unfold request_of, body_of, AQLQueryCache.configure. cbn.
    destruct Hnone as [-> | ->]; cbn.
    + left. destruct (is_not_None limit); by simplify_map_eq.
    + right. destruct (is_not_None mode); by simplify_map_eq.
Qed.

Lemma configure_echo_witness :
  handler_of (AQLQueryCache.configure (PStr "on") (PInt 5))
    (Response 200
       (PDict (body_of (request_of
                          (AQLQueryCache.configure (PStr "on") (PInt 5))))))
  = Ret (PDict {[ KStr "mode" := PStr "on"; KStr "limit" := PInt 5 ]})
  /\ handler_of (AQLQueryCache.configure PNone (PInt 5))
       (Response 200
          (PDict (body_of (request_of
                             (AQLQueryCache.configure PNone (PInt 5))))))
     = Raise KeyError.
Proof.
  split.
  - apply (configure_echo 200 (PStr "on") (PInt 5) eq_refl); discriminate.
  - apply (configure_echo 200 PNone (PInt 5) eq_refl). by left.
Defined.

(** X16: the handlers of the cache [properties] and [configure] return
    exactly when the status is a success status and the body is a mapping
    with both [mode] and [maxResults]; the mapping they return has the two
    keys [mode] and [limit] and no [maxResults] key. *)
Theorem cache_handlers_return (mode_arg limit_arg : pyval) (res : response)
    (v : pyval) :
  (handler_of AQLQueryCache.properties res = Ret v
   <-> handler_of (AQLQueryCache.configure mode_arg limit_arg) res = Ret v)
  /\ (handler_of AQLQueryCache.properties res = Ret v
      <-> status_in (status_code res) HTTP_OK = true
          /\ exists (d : pydict) (mode limit : pyval),
               body res = PDict d
               /\ d !! KStr "mode" = Some mode
               /\ d !! KStr "maxResults" = Some limit
               /\ v = PDict {[ KStr "mode" := mode; KStr "limit" := limit ]})
  /\ (handler_of AQLQueryCache.properties res = Ret v ->
      exists m : pydict,
        v = PDict m /\ dom m = {[ KStr "mode"; KStr "limit" ]}).
Proof.
  assert (Hchar :
    handler_of AQLQueryCache.properties res = Ret v
    <-> status_in (status_code res) HTTP_OK = true
        /\ exists (d : pydict) (mode limit : pyval),
             body res = PDict d
             /\ d !! KStr "mode" = Some mode
             /\ d !! KStr "maxResults" = Some limit
             /\ v = PDict {[ KStr "mode" := mode; KStr "limit" := limit ]}).
  { unfold handler_of. cbn.
    destruct (status_in (status_code res) HTTP_OK); cbn.
    - split.
      + intros Hret. split; [reflexivity |].
        destruct (py_getitem (body res) "mode") as [mode |] eqn:Hmode;
          [| discriminate]. cbn in Hret.
        destruct (py_getitem (body res) "maxResults") as [limit |] eqn:Hlimit;
          [| discriminate]. cbn in Hret.
        apply getitem_returns in Hmode as (d & Hbody & Hmode).
        apply getitem_returns in Hlimit as (d' & Hbody' & Hlimit).
        rewrite Hbody in Hbody'. injection Hbody' as <-.
        exists d, mode, limit. repeat split; try assumption. congruence.
      + intros (_ & d & mode & limit & -> & Hmode & Hlimit & ->).
        rewrite (getitem_present d "mode" mode Hmode). cbn.
        rewrite (getitem_present d "maxResults" limit Hlimit). reflexivity.
    - split; [discriminate | intros [? _]; discriminate]. }
  split; [| split; [exact Hchar |]].
  - unfold handler_of. cbn.
    destruct (status_in (status_code res) HTTP_OK); cbn;
      [reflexivity | split; discriminate].
  - intros Hret. apply Hchar in Hret as (_ & d & mode & limit & _ & _ & _ & ->).
    eexists. split; [reflexivity |].
    rewrite dom_insert_L, dom_singleton_L. reflexivity.
Qed.

Lemma cache_handlers_return_witness :
  handler_of AQLQueryCache.properties
    (Response 200
       (PDict {[ KStr "mode" := PStr "off"; KStr "maxResults" := PInt 128 ]}))
  = Ret (PDict {[ KStr "mode" := PStr "off"; KStr "limit" := PInt 128 ]}).
Proof.
  apply (cache_handlers_return PNone PNone
           (Response 200
              (PDict {[ KStr "mode" := PStr "off";
                        KStr "maxResults" := PInt 128 ]}))).
  split; [reflexivity |].
  exists {[ KStr "mode" := PStr "off"; KStr "maxResults" := PInt 128 ]},
    (PStr "off"), (PInt 128).
  split; [reflexivity |]. split; [vm_compute; reflexivity |].
  split; [vm_compute; reflexivity | reflexivity].
Defined.
